(** * filter_ace_inline: the parameter resolver and the response classifier

    A shallow embedding of the pure core of [amd/src/ace_inline_code.js]:
    [getUiParameters] (attributes of a <pre> element merged over the default
    UI parameters), [diagnose] (sandbox response to language-string key),
    [combinedOutput] (output assembly with truncation) and the [done]
    callback of [executeCode] followed by [displayTextOutput].

    Conventions of the embedding.
    - A JavaScript string is a [string]; one [ascii] stands for one UTF-16
      code unit (the Latin-1 range).
    - A JavaScript number that the code handles is an integer or NaN
      ([number]); integers are exact (the rounding of integers beyond 2^53 to
      doubles, the exponent notation of their decimal form and the sign of
      zero are not modelled).
    - A JavaScript object used as a dictionary is a [gmap string jsval]: its
      own enumerable properties, under ordinary property names.
    - A statement that can throw returns a [completion]: the value, or the
      error thrown (by the language itself, by jQuery or by a global
      function).
    - The localisation service and the DOM are parameters: a function from
      language-string keys to strings, and an [element] that answers
      [getNamedItem]. *)

From Stdlib Require Import ZArith Ascii String List Lia.
From stdpp Require Import base option gmap strings list fin_maps pretty.

Local Open Scope string_scope.
Local Open Scope Z_scope.

(** ** JavaScript values *)

Inductive number : Type :=
| NaN
| Int (z : Z).

#[warnings="-register-all"]
Inductive jsval : Type :=
| JUndefined
| JNull
| JBool (b : bool)
| JNum (n : number)
| JStr (s : string)
| JObj (fields : list (string * jsval)).

(** What a statement throws: the TypeError of the language (a call of what
    is not a function, a property of null or undefined), or an error object
    made by a library or a global function, with its message. *)
Inductive error : Type :=
| TypeError
| Error (message : string).

Inductive completion (A : Type) : Type :=
| Normal (a : A)
| Throw (e : error).
Arguments Normal {A} a.
Arguments Throw {A} e.

(** ** The response classifier *)

Module Classifier.

(** The response of the sandbox web service, after [JSON.parse]. *)
Record response : Type := mkResponse {
  r_error : Z;
  r_result : Z;
  r_cmpinfo : string;
  r_output : string;
  r_stderr : string
}.

Definition RESULT_SUCCESS : Z := 15.

(** Each row is response.error, response.result, langstring. *)
Definition ERROR_RESPONSES : list (Z * Z * string) :=
  [ (1, 0, "error_access_denied");
    (2, 0, "error_unknown_language");
    (3, 0, "error_access_denied");
    (4, 0, "error_submission_limit_reached");
    (5, 0, "error_sandbox_server_overload");
    (0, 11, "");
    (0, 12, "");
    (0, 13, "error_timeout");
    (0, RESULT_SUCCESS, "");
    (0, 17, "error_memory_limit");
    (0, 21, "error_sandbox_server_overload");
    (0, 30, "error_excessive_output") ].

(** The test of one row:
    [row[0] == response.error && (response.error != 0 || response.result == row[1])].
    On integers the loose equality is equality. *)
Definition row_matches (response : response) (row : Z * Z * string) : bool :=
  let '(e, r, _) := row in
  (e =? r_error response) && (negb (r_error response =? 0) || (r_result response =? r)).

(** The [for ... of] loop with its early [return]. *)
Fixpoint diagnose_rows (rows : list (Z * Z * string)) (response : response) : string :=
  match rows with
  | [] => "error_unknown_runtime"
  | row :: rest =>
      if row_matches response row then snd row else diagnose_rows rest response
  end.

Definition diagnose (response : response) : string :=
  diagnose_rows ERROR_RESPONSES response.

(** The categories of the specification, and the language-string key that
    [diagnose] returns for each of them. *)
Inductive category : Type :=
| no_error
| access_denied
| unknown_language
| submission_limit_reached
| sandbox_server_overload
| timeout
| memory_limit
| excessive_output
| unknown_runtime_error.

Definition langstring (c : category) : string :=
  match c with
  | no_error => ""
  | access_denied => "error_access_denied"
  | unknown_language => "error_unknown_language"
  | submission_limit_reached => "error_submission_limit_reached"
  | sandbox_server_overload => "error_sandbox_server_overload"
  | timeout => "error_timeout"
  | memory_limit => "error_memory_limit"
  | excessive_output => "error_excessive_output"
  | unknown_runtime_error => "error_unknown_runtime"
  end.

(** The category that the rule table of the specification gives to a
    sandbox error code 1..5 (rules 1 to 5). *)
Definition spec_sandbox_category (e : Z) : category :=
  if e =? 1 then access_denied
  else if e =? 2 then unknown_language
  else if e =? 3 then access_denied
  else if e =? 4 then submission_limit_reached
  else sandbox_server_overload.

End Classifier.

(** ** The classifier on whatever [JSON.parse] returns

    [diagnose] again, this time with the response as a JavaScript value and
    its fields read as the code reads them: a property of null or undefined
    throws, a missing field is undefined, and the comparisons are the loose
    ones of [==] and [!=]. *)

Module ParsedClassifier.

Section Numeric.

(** The numeric value of a string ([StringToNumber]), as far as a comparison
    with an integer needs it: [Int z] when the value is the integer z, [NaN]
    when it is not a number or is a number that is not an integer. *)
Variable StringToNumber : string -> number.

(** [n == v] for an integer n: null and undefined equal no number, a boolean
    is compared as 0 or 1, a string by its numeric value, and a plain object
    by the numeric value of [object Object], which is NaN. *)
Definition looseEq (n : Z) (v : jsval) : bool :=
  match v with
  | JUndefined | JNull => false
  | JBool b => n =? (if b then 1 else 0)
  | JNum NaN => false
  | JNum (Int z) => n =? z
  | JStr s => match StringToNumber s with
              | Int z => n =? z
              | NaN => false
              end
  | JObj _ => false
  end.

(** The value of the property [name] among the fields of an object; the last
    of several fields of one name counts, as in [JSON.parse]. *)
Definition property (fields : list (string * jsval)) (name : string) : jsval :=
  fold_left (fun found '(k, v) => if String.eqb k name then v else found)
            fields JUndefined.

(** [response.error] and [response.result]: a TypeError on null and
    undefined, undefined on any other primitive. *)
Definition getField (response : jsval) (name : string) : completion jsval :=
  match response with
  | JUndefined | JNull => Throw TypeError
  | JObj fields => Normal (property fields name)
  | _ => Normal JUndefined
  end.

(** [row[0] == response.error && (response.error != 0 || response.result == row[1])]. *)
Definition row_matches (response : jsval) (row : Z * Z * string) : completion bool :=
  let '(e, r, _) := row in
  match getField response "error" with
  | Throw x => Throw x
  | Normal error =>
      if looseEq e error then
        if negb (looseEq 0 error) then Normal true
        else match getField response "result" with
             | Throw x => Throw x
             | Normal result => Normal (looseEq r result)
             end
      else Normal false
  end.

Fixpoint diagnose_rows (rows : list (Z * Z * string)) (response : jsval)
  : completion string :=
  match rows with
  | [] => Normal "error_unknown_runtime"
  | row :: rest =>
      match row_matches response row with
      | Throw x => Throw x
      | Normal true => Normal (snd row)
      | Normal false => diagnose_rows rest response
      end
  end.

Definition diagnose (response : jsval) : completion string :=
  diagnose_rows Classifier.ERROR_RESPONSES response.

End Numeric.


End ParsedClassifier.

(** ** Output assembly and display *)

Module Output.
Import Classifier.

Definition MAX_OUTPUT_LENGTH : Z := 30000.

(** [String.prototype.substr(start, length)] on integer arguments: a negative
    start counts from the end, the length is clamped to [0, size]. *)
Definition substr (s : string) (start len : Z) : string :=
  let size := Z.of_nat (String.length s) in
  let intStart := if start <? 0 then Z.max (size + start) 0 else Z.min start size in
  let intLength := Z.min (Z.max len 0) size in
  let intEnd := Z.min (intStart + intLength) size in
  String.substring (Z.to_nat intStart) (Z.to_nat (intEnd - intStart)) s.

(** [String.prototype.endsWith]. *)
Definition endsWith (s suffix : string) : bool :=
  let n := String.length s in
  let m := String.length suffix in
  (m <=? n)%nat && String.eqb (String.substring (n - m) m s) suffix.

(** The arrow function [limit] of [combinedOutput]. *)
Definition limit (maxLen : Z) (s : string) : string :=
  if Z.of_nat (String.length s) <=? maxLen then s
  else substr s 0 maxLen +:+ "... (truncated)".

Definition combinedOutput (response : response) (maxLen : Z) : string :=
  (r_cmpinfo response +:+ limit maxLen (r_output response))
    +:+ limit maxLen (r_stderr response).

(** [escapeHtml]: each of the five special characters becomes its entity. *)
Definition escapeChar (c : ascii) : string :=
  match c with
  | "&"%char => "&amp;"
  | "<"%char => "&lt;"
  | ">"%char => "&gt;"
  | "034"%char => "&quot;"
  | "'"%char => "&#039;"
  | _ => String c ""
  end.

Fixpoint escapeHtml (text : string) : string :=
  match text with
  | "" => ""
  | String c rest => escapeChar c +:+ escapeHtml rest
  end.

(** What the [done] callback of [executeCode] leaves behind: the two strings
    handed to [displayTextOutput], the raw html inserted after the display
    area (if any) and the style of the display area. *)
Record rendering : Type := mkRendering {
  text : string;
  langString : string;
  htmlAfter : option string;
  backgroundColor : string;
  marginBottom : string
}.

Definition newline : string := String "010" "".

(** The extra text of the error branch of [done]. *)
Definition extraText (response : response) (maxLen : Z) (error : string) : string :=
  let extra := if r_error response =? 0 then combinedOutput response maxLen else "" in
  if String.eqb error "error_unknown_runtime" then
    extra +:+ (if negb (r_error response =? 0)
               then ("(Sandbox error code " +:+ pretty (r_error response)) +:+ ")"
               else ("(Run result: " +:+ pretty (r_result response)) +:+ ")")
  else extra.

(** The [done] callback of [executeCode], from the parsed response on.
    [htmlOutput] is [uiParameters['html-output'] !== null]; [text] and
    [langString] start empty, and [cleanOutput] has reset the style. *)
Definition done (htmlOutput : bool) (maxLen : Z) (response : response) : rendering :=
  let error := diagnose response in
  if String.eqb error "" then
    if negb htmlOutput || negb (r_result response =? RESULT_SUCCESS) then
      mkRendering (combinedOutput response maxLen) "" None
        (if negb (r_result response =? RESULT_SUCCESS) then "#ffd" else "#eff") "10px"
    else
      mkRendering "" "" (Some (r_output response)) "#eff" "0px"
  else
    mkRendering (extraText response maxLen error) error None "#ffd" "10px".

Section Display.

(** The localisation service: [str.get_string(name, 'filter_ace_inline')]. *)
Variable get_string : string -> string.

(** The line put before the text when there is a language string. *)
Definition banner (langString : string) : string :=
  ("*** " +:+ get_string langString) +:+ (" ***" +:+ newline).

(** [displayTextOutput]: the html written to the output text area. *)
Definition displayTextOutput (text langString : string) : string :=
  let text :=
    if negb (String.eqb langString "") then banner langString +:+ text else text in
  escapeHtml text.

(** The text shown for a response: [done] followed by [displayTextOutput]. *)
Definition presented (htmlOutput : bool) (maxLen : Z) (response : response) : string :=
  let d := done htmlOutput maxLen response in
  displayTextOutput (text d) (langString d).

End Display.

End Output.

(** ** The parameter resolver *)

Module Resolver.

(** A DOM element, as far as [getUiParameters] uses it:
    [pre.attributes.getNamedItem(name)] is [None] for [null] and otherwise
    the [value] of the attribute node. *)
Record element : Type := mkElement {
  getNamedItem : string -> option string
}.

(** An element given by its attribute list. *)
Definition elementOf (attrs : list (string * string)) : element :=
  mkElement (fun name => (list_to_map attrs : gmap string string) !! name).

(** *** Platform functions *)

(** [String.prototype.toLowerCase] on Latin-1 code units. *)
Definition lowerChar (c : ascii) : ascii :=
  let n := N_of_ascii c in
  if ((65 <=? n) && (n <=? 90) || (192 <=? n) && (n <=? 222) && negb (n =? 215))%N
  then ascii_of_N (n + 32) else c.

Fixpoint toLowerCase (s : string) : string :=
  match s with
  | "" => ""
  | String c rest => String (lowerChar c) (toLowerCase rest)
  end.

(** White space and line terminators that [parseInt] skips. *)
Definition isWhiteSpace (c : ascii) : bool :=
  match c with
  | "009" | "010" | "011" | "012" | "013" | " " | "160" => true
  | _ => false
  end%char.

Fixpoint trimStart (s : string) : string :=
  match s with
  | "" => ""
  | String c rest => if isWhiteSpace c then trimStart rest else s
  end.

(** The value of a digit in radix up to 36. *)
Definition digitValue (c : ascii) : option Z :=
  let n := Z.of_N (N_of_ascii c) in
  if (48 <=? n) && (n <=? 57) then Some (n - 48)
  else if (97 <=? n) && (n <=? 122) then Some (n - 87)
  else if (65 <=? n) && (n <=? 90) then Some (n - 55)
  else None.

(** The longest prefix of radix-[R] digits, as a number; [None] when there
    is no digit at all. *)
Fixpoint parseDigits (R : Z) (s : string) (acc : option Z) : option Z :=
  match s with
  | "" => acc
  | String c rest =>
      match digitValue c with
      | Some d =>
          if d <? R then parseDigits R rest (Some (default 0 acc * R + d)) else acc
      | None => acc
      end
  end.

(** [parseInt(string)] with no radix argument. The result is the integer
    that the digits write; it is the number that JavaScript returns as long
    as that integer is a safe one (at most 2^53 - 1 in absolute value). *)
Definition parseInt (s : string) : number :=
  let str := trimStart s in
  let '(sign, str) :=
    match str with
    | String "-" rest => (-1, rest)
    | String "+" rest => (1, rest)
    | _ => (1, str)
    end in
  let '(R, str) :=
    match str with
    | String "0" (String "x" rest) | String "0" (String "X" rest) => (16, rest)
    | _ => (10, str)
    end in
  match parseDigits R str None with
  | None => NaN
  | Some n => Int (sign * n)
  end.

(** [String.prototype.split(sep)] for a one-character separator. *)
Fixpoint split (sep : ascii) (s : string) : list string :=
  match s with
  | "" => [""]
  | String c rest =>
      if Ascii.eqb c sep then "" :: split sep rest
      else match split sep rest with
           | tok :: toks => String c tok :: toks
           | [] => [String c ""]
           end
  end.

Definition startsWith (s searchString : string) : bool :=
  String.prefix searchString s.

Fixpoint dropChars (n : nat) (s : string) : string :=
  match n, s with
  | O, _ => s
  | S n', String _ rest => dropChars n' rest
  | S _, "" => ""
  end.

(** [String.prototype.replace(pattern, replacement)] for a string pattern and
    a replacement with no dollar sign: the first occurrence is replaced. *)
Fixpoint replace (pattern replacement s : string) : string :=
  if String.prefix pattern s
  then replacement +:+ dropChars (String.length pattern) s
  else match s with
       | "" => ""
       | String c rest => String c (replace pattern replacement rest)
       end.

(** *** getUiParameters *)

(** The attribute found for [attrName]: the raw name first, then with the
    data- prefix. *)
Definition namedAttr (pre : element) (attrName : string) : option string :=
  match getNamedItem pre attrName with
  | Some value => Some value
  | None => getNamedItem pre ("data-" +:+ attrName)
  end.

(** The value given to an attribute that exists. *)
Definition coerce (attrName value : string) : jsval :=
  if String.eqb attrName "start-line-number" then
    if String.eqb (toLowerCase value) "none" then JNull else JNum (parseInt value)
  else if String.eqb attrName "min-lines" || String.eqb attrName "max-lines" then
    JNum (parseInt value)
  else if String.eqb attrName "hidden" then
    JBool true
  else JStr value.

(** The body of the [for ... in] loop for one key of [defaultParams]. *)
Definition paramValue (pre : element) (attrName : string) (dflt : jsval) : jsval :=
  match namedAttr pre attrName with
  | Some value => coerce attrName value
  | None => dflt
  end.

(** The [for ... in] loop: one assignment to [uiParameters] per own key,
    for defaults whose keys are ordinary property names ([ordinaryKeys]
    below, as in the defaults of both features). *)
Definition collectParams (pre : element) (defaultParams : gmap string jsval)
  : gmap string jsval :=
  map_fold (fun attrName dflt uiParameters =>
              <[attrName := paramValue pre attrName dflt]> uiParameters)
           ∅ defaultParams.

(** The callback of [splitClass.forEach]. *)
Definition languageFromClass (uiParameters : gmap string jsval) (attribute : string)
  : gmap string jsval :=
  if startsWith attribute "language"
  then <["lang" := JStr (replace "language-" "" attribute)]> uiParameters
  else uiParameters.

(** [uiParameters['class'].split(" ")] throws a TypeError unless the value
    is a string. *)
Definition getUiParameters (pre : element) (defaultParams : gmap string jsval)
  : completion (gmap string jsval) :=
  let uiParameters := collectParams pre defaultParams in
  match uiParameters !! "class" with
  | Some (JStr cls) =>
      Normal (fold_left languageFromClass (split " " cls) uiParameters)
  | _ => Throw TypeError
  end.

(** The tokens of a class value that set the language. *)
Definition languageTokens (cls : string) : list string :=
  List.filter (fun attribute => startsWith attribute "language") (split " " cls).

(** *** The wording of the specification, for comparison *)

(** The string none in any letter case. *)
Definition isLetter (lower upper c : ascii) : bool :=
  Ascii.eqb c lower || Ascii.eqb c upper.

Definition isNoneAnyCase (value : string) : bool :=
  match value with
  | String c1 (String c2 (String c3 (String c4 ""))) =>
      isLetter "n" "N" c1 && isLetter "o" "O" c2
      && isLetter "n" "N" c3 && isLetter "e" "E" c4
  | _ => false
  end.

(** The post-processing step as the specification words it: the class value
    is split on white space, and a token that begins with the prefix
    language sets lang to the remainder of the token after that prefix. *)
Definition spec_languageFromClass (uiParameters : gmap string jsval) (token : string)
  : gmap string jsval :=
  if String.prefix "language" token
  then <["lang" := JStr (dropChars (String.length "language") token)]> uiParameters
  else uiParameters.

Definition spec_postProcess (uiParameters : gmap string jsval) (cls : string)
  : gmap string jsval :=
  fold_left spec_languageFromClass (String.words cls) uiParameters.

(** The completeness property as the specification words it: a value for
    every default key, and the default itself where no override is found. *)
Definition spec_resolved (pre : element) (defaults : gmap string jsval) : Prop :=
  exists cfg : gmap string jsval,
    getUiParameters pre defaults = Normal cfg
    /\ forall (K : string) (dflt : jsval),
         defaults !! K = Some dflt ->
         is_Some (cfg !! K) /\ (namedAttr pre K = None -> cfg !! K = Some dflt).

(** *** The default parameters of the two features *)

Record config : Type := mkConfig {
  button_label : jsval;
  dark_theme_mode : jsval
}.

Definition dquote : string := String "034" "".

Definition MIN_WINDOW_LINES : Z := 1.
Definition MAX_WINDOW_LINES : Z := 50.

Definition highlightDefaults (config : config) : gmap string jsval :=
  list_to_map
    [ ("class", JStr "ace_highlight_code");
      ("lang", JStr "python3");
      ("ace-lang", JStr "");
      ("font-size", JStr "11pt");
      ("start-line-number", JNull);
      ("min-lines", JNum (Int MIN_WINDOW_LINES));
      ("max-lines", JNum (Int MAX_WINDOW_LINES));
      ("readonly", JBool true);
      ("dark-theme-mode", dark_theme_mode config) ].

Definition interactiveDefaults (config : config) : gmap string jsval :=
  list_to_map
    [ ("class", JStr "ace_interactive_code");
      ("lang", JStr "python3");
      ("ace-lang", JStr "");
      ("font-size", JStr "11pt");
      ("hidden", JBool false);
      ("start-line-number", JNum (Int 1));
      ("button-name", button_label config);
      ("readonly", JNull);
      ("stdin", JStr "");
      ("stdin-taid", JStr "");
      ("file-taids", JObj []);
      ("file-upload-id", JNull);
      ("prefix", JStr "");
      ("suffix", JStr "");
      ("params", JStr ("{" +:+ dquote +:+ "cputime" +:+ dquote +:+ ": 5}"));
      ("code-mapper", JNull);
      ("html-output", JNull);
      ("min-lines", JNum (Int MIN_WINDOW_LINES));
      ("max-lines", JNum (Int MAX_WINDOW_LINES));
      ("max-output-length", JNum (Int Output.MAX_OUTPUT_LENGTH));
      ("dark-theme-mode", dark_theme_mode config) ].

(** The two property names that the loop of [getUiParameters] does not treat
    as plain keys of [defaultParams]: an own property hasOwnProperty hides
    the method that the loop calls on [defaultParams], and an assignment to
    __proto__ creates no property of [uiParameters]. Defaults without them
    have ordinary keys only. *)
Definition ordinaryKeys (defaultParams : gmap string jsval) : Prop :=
  defaultParams !! "hasOwnProperty" = None /\ defaultParams !! "__proto__" = None.

End Resolver.

(** * Further parts of the file

    The rest of the embedding covers what surrounds the resolver and the
    classifier in [ace_inline_code.js]: [longest], the settings that
    [setUpAce] derives from the resolved parameters, the calls made by
    [applyToPre], and the path of a click on the button ([getStdin],
    [getFiles], [handleButtonClick], the handler installed by [addUi]).
    The page (jQuery), the global functions, JSON and the localisation
    service are parameters of the sections that use them. *)

(** ** Characters and text, for the statements about escaping *)

Module Html.

(** The character class of the regular expression of [escapeHtml]. *)
Definition isSpecial (c : ascii) : bool :=
  match c with
  | "&" | "<" | ">" | "034" | "'" => true
  | _ => false
  end%char.

(** The characters that can open a tag or close an attribute value. *)
Definition isMarkup (c : ascii) : bool :=
  match c with
  | "<" | ">" | "034" | "'" => true
  | _ => false
  end%char.

(** [String.prototype.includes] for one character. *)
Fixpoint includes (s : string) (c : ascii) : bool :=
  match s with
  | "" => false
  | String x rest => Ascii.eqb x c || includes rest c
  end.

(** Some character of the string satisfies the test. *)
Fixpoint anyChar (p : ascii -> bool) (s : string) : bool :=
  match s with
  | "" => false
  | String x rest => p x || anyChar p rest
  end.

(** A decimal digit. *)
Definition isDecimalDigit (c : ascii) : bool :=
  match c with
  | "0" | "1" | "2" | "3" | "4" | "5" | "6" | "7" | "8" | "9" => true
  | _ => false
  end%char.

(** Every character of the string satisfies the test. *)
Fixpoint allChars (p : ascii -> bool) (s : string) : bool :=
  match s with
  | "" => true
  | String x rest => p x && allChars p rest
  end.

End Html.

(** ** Conversions of JavaScript values *)

Module Js.

(** Truthiness, as [if (v)], [!v] and [v ? a : b] see it. *)
Definition ToBoolean (v : jsval) : bool :=
  match v with
  | JUndefined | JNull => false
  | JBool b => b
  | JNum NaN => false
  | JNum (Int z) => negb (z =? 0)
  | JStr s => negb (String.eqb s "")
  | JObj _ => true
  end.

(** The integers that a double holds exactly, and whose decimal form is
    written without an exponent: up to [Number.MAX_SAFE_INTEGER]. *)
Definition MAX_SAFE_INTEGER : Z := 9007199254740991.

(** [Number.prototype.toString]; the decimal form, as it is for the integers
    up to [MAX_SAFE_INTEGER] in absolute value. *)
Definition numberToString (n : number) : string :=
  match n with
  | NaN => "NaN"
  | Int z => pretty z
  end.

(** [typeof v === 'number']. *)
Definition isNumber (v : jsval) : bool :=
  match v with
  | JNum _ => true
  | _ => false
  end.

(** The string form of a value; a plain object gives [object Object]. *)
Definition ToString (v : jsval) : string :=
  match v with
  | JUndefined => "undefined"
  | JNull => "null"
  | JBool true => "true"
  | JBool false => "false"
  | JNum n => numberToString n
  | JStr s => s
  | JObj _ => "[object Object]"
  end.

(** The numeric form of a value that is neither a string nor an object. *)
Definition ToNumber (v : jsval) : number :=
  match v with
  | JNull | JBool false => Int 0
  | JBool true => Int 1
  | JNum n => n
  | _ => NaN
  end.

Definition addNumbers (a b : number) : number :=
  match a, b with
  | Int x, Int y => Int (x + y)
  | _, _ => NaN
  end.

(** The operator [+]: concatenation as soon as one side is a string (or an
    object, whose primitive form is a string), addition otherwise (of
    integers, exact as long as the sum is a safe integer). *)
Definition add (a b : jsval) : jsval :=
  match a, b with
  | JStr _, _ | JObj _, _ | _, JStr _ | _, JObj _ => JStr (ToString a +:+ ToString b)
  | _, _ => JNum (addNumbers (ToNumber a) (ToNumber b))
  end.

(** [o[key]]: undefined for a key that the object does not have. *)
Definition get (o : gmap string jsval) (key : string) : jsval :=
  default JUndefined (o !! key).

(** [v === 'text']. *)
Definition strictEqString (v : jsval) (s : string) : bool :=
  match v with
  | JStr x => String.eqb x s
  | _ => false
  end.

(** [v !== null]. *)
Definition isNotNull (v : jsval) : bool :=
  match v with
  | JNull => false
  | _ => true
  end.

(** [$.isEmptyObject(v)]: no enumerable property at all. *)
Definition isEmptyObject (v : jsval) : bool :=
  match v with
  | JStr s => String.eqb s ""
  | JObj fields => match fields with [] => true | _ :: _ => false end
  | _ => true
  end.

End Js.

(** ** Setting up the editor *)

Module Editor.
Import Js.

(** The loop of [longest], from the current [longest] on. *)
Fixpoint longest_from (longest : string) (lines : list string) : string :=
  match lines with
  | [] => longest
  | line :: rest =>
      longest_from
        (if (String.length longest <? String.length line)%nat then line else longest)
        rest
  end.

Definition longest (lines : list string) : string := longest_from "" lines.

Definition aceModeMap : list (string * string) :=
  [ ("c", "c_cpp"); ("cpp", "c_cpp"); ("js", "javascript"); ("nodejs", "javascript");
    ("c#", "cs"); ("octave", "matlab"); ("c++", "c_cpp"); ("python2", "python");
    ("python3", "python"); ("markup", "html") ].

(** The property names that every object inherits from [Object.prototype];
    the operator [in] finds them too. *)
Definition objectPrototypeNames : list string :=
  [ "constructor"; "hasOwnProperty"; "isPrototypeOf"; "propertyIsEnumerable";
    "toLocaleString"; "toString"; "valueOf"; "__proto__"; "__defineGetter__";
    "__defineSetter__"; "__lookupGetter__"; "__lookupSetter__" ].

Fixpoint assoc (key : string) (table : list (string * string)) : option string :=
  match table with
  | [] => None
  | (k, v) :: rest => if String.eqb k key then Some v else assoc key rest
  end.

(** The editor mode: a mode name, or whatever an inherited property of the
    map turns into when it is appended to a string. *)
Inductive aceMode : Type :=
| Mode (name : string)
| InheritedProperty (property : string).

(** [if (aceLang in aceModeMap) aceLang = aceModeMap[aceLang]; mode = 'ace/mode/' + aceLang]. *)
Definition modeOf (aceLang : string) : aceMode :=
  match assoc aceLang aceModeMap with
  | Some name => Mode ("ace/mode/" +:+ name)
  | None =>
      if existsb (String.eqb aceLang) objectPrototypeNames
      then InheritedProperty aceLang
      else Mode ("ace/mode/" +:+ aceLang)
  end.

(** What [setUpAce] derives from the parameters for the editor (the choice
    of the theme, which asks the browser, and the sizes are left out). *)
Record aceSettings : Type := mkAceSettings {
  mode : aceMode;
  showLineNumbers : bool;
  firstLineNumber : jsval;
  maxLines : jsval;
  fontSize : jsval;
  readOnly : bool
}.

(** The statements of [setUpAce] from the python case down to the editor
    configuration: the parameters with the language updated, and the
    settings. [aceLang.toLowerCase()] throws unless [aceLang] is a string. *)
Definition setUpAce (uiParameters : gmap string jsval)
  : completion (gmap string jsval * aceSettings) :=
  let uiParameters :=
    <["lang" := if strictEqString (get uiParameters "lang") "python"
                then JStr "python3" else get uiParameters "lang"]> uiParameters in
  let showLineNumbers := ToBoolean (get uiParameters "start-line-number") in
  let aceLang :=
    if ToBoolean (get uiParameters "ace-lang")
    then get uiParameters "ace-lang" else get uiParameters "lang" in
  match aceLang with
  | JStr aceLang =>
      Normal (uiParameters,
              mkAceSettings (modeOf (Resolver.toLowerCase aceLang)) showLineNumbers
                (get uiParameters "start-line-number")
                (get uiParameters "max-lines") (get uiParameters "font-size")
                (isNotNull (get uiParameters "readonly")))
  | _ => Throw TypeError
  end.

(** Where the code of an interactive block is read from. *)
Inductive codeSource : Type :=
| FromEditor
| FromPre.

(** The calls that [applyToPre] makes, in order. *)
Inductive uiAction : Type :=
| SetupFileHandler (uploadElementId : jsval)
| SetUpAce (isInteractive : bool)
| AddUi (getCode : codeSource)
| HidePre.

Definition applyToPre (isInteractive : bool) (uiParameters : gmap string jsval)
  : list uiAction :=
  (if ToBoolean (get uiParameters "file-upload-id")
   then [SetupFileHandler (get uiParameters "file-upload-id")] else [])
  ++ (if negb (ToBoolean (get uiParameters "hidden")) then [SetUpAce isInteractive]
      else if isInteractive then [AddUi FromPre] else [])
  ++ [HidePre].

End Editor.

(** ** Running the code of an interactive block *)

Module Run.
Import Js.

(** The arguments of the web-service call in [executeCode]. *)
Record request : Type := mkRequest {
  sourcecode : jsval;
  language : jsval;
  stdin : jsval;
  files : jsval;
  params : jsval
}.

(** What [handleButtonClick] leaves behind: the value it returns (the code,
    or null), the parameters as it changed them, and the html of the error
    message if it showed one. *)
Record handled : Type := mkHandled {
  returned : jsval;
  parameters : gmap string jsval;
  errorShown : option string
}.

Section Page.

(** The page: [$(selector).val()]. The value is undefined when the selector
    matches nothing, and jQuery throws an error for a selector that it cannot
    parse. *)
Variable val : string -> completion jsval.

(** The global functions: [window[name]], if it can be called; the call
    returns a value or throws. *)
Variable window : string -> option (jsval -> completion jsval).

(** [JSON.parse(text)] as the loop of [getFiles] sees it: the own enumerable
    properties of the result in order, each with the string form of its
    value; [None] when the text is not JSON. *)
Variable JSON_parse : string -> option (list (string * string)).

(** [JSON.stringify] of the object built by the given assignments, made in
    that order on an empty object. *)
Variable JSON_stringify : list (string * jsval) -> string.

(** The localisation service. *)
Variable get_string : string -> string.

Definition getStdin (uiParameters : gmap string jsval) : completion jsval :=
  let taid := get uiParameters "stdin-taid" in
  let stdin := get uiParameters "stdin" in
  if ToBoolean taid then
    match val ("#" +:+ ToString taid) with
    | Throw e => Throw e
    | Normal output => Normal (if negb (ToBoolean output) then JNull else output)
    end
  else if ToBoolean stdin then Normal stdin
  else Normal (JStr "").

(** [o.hasOwnProperty(name)] inside a [for ... in] loop over [o]: the call
    throws a TypeError when [o] has an own property named hasOwnProperty,
    whose value is not a function. *)
Definition hidesHasOwnProperty {A : Type} (properties : list (string * A)) : bool :=
  existsb (fun '(name, _) => String.eqb name "hasOwnProperty") properties.

(** The first loop of [getFiles], after the test of [hasOwnProperty]: one
    assignment to [map] per file name; [None] at the first id whose element
    has no value, and the error of jQuery at the first id that makes no
    selector. *)
Fixpoint readTaids (taids : list (string * string)) (map : list (string * jsval))
  : completion (option (list (string * jsval))) :=
  match taids with
  | [] => Normal (Some map)
  | (filename, id) :: rest =>
      match val ("#" +:+ id) with
      | Throw e => Throw e
      | Normal value =>
          if negb (ToBoolean value) then Normal None
          else readTaids rest (map ++ [(filename, value)])
      end
  end.

(** The second loop of [getFiles] and its last line. *)
Definition mergeUploads (map : list (string * jsval))
    (uploadFiles : list (string * string)) : completion string :=
  if hidesHasOwnProperty uploadFiles then Throw TypeError
  else Normal (JSON_stringify
                 (map ++ List.map (fun '(name, contents) => (name, JStr contents))
                           uploadFiles)).

(** [getFiles], with the global [uploadFiles] as its own properties in the
    order of the loop. The promise that it returns is awaited at once: a
    rejection is the error thrown. *)
Definition getFiles (uiParameters : gmap string jsval)
    (uploadFiles : list (string * string)) : completion string :=
  let taids := get uiParameters "file-taids" in
  if negb (isEmptyObject taids) then
    match JSON_parse (ToString taids) with
    | None => Normal "error"
    | Some taids =>
        if hidesHasOwnProperty taids then Throw TypeError
        else match readTaids taids [] with
             | Throw e => Throw e
             | Normal None => Normal "bad_id"
             | Normal (Some map) => mergeUploads map uploadFiles
             end
    end
  else mergeUploads [] uploadFiles.

(** The object that a sequence of assignments builds; an assignment to
    __proto__ creates no property. *)
Definition objectOf (assignments : list (string * jsval)) : gmap string jsval :=
  fold_left (fun o '(name, value) =>
               if String.eqb name "__proto__" then o else <[name := value]> o)
            assignments ∅.

Definition userParamsError : string :=
  Output.escapeHtml
    (((("*** " +:+ get_string "error_user_params") +:+ (" ***" +:+ Output.newline)))
       +:+ get_string "error_element_unknown").

(** The end of [handleButtonClick], from the test of the language on. *)
Definition checked (code : jsval) (uiParameters : gmap string jsval)
    (stdin : jsval) (files : string) : handled :=
  if strictEqString (get uiParameters "lang") "markup"
     || strictEqString (get uiParameters "lang") "html" then
    mkHandled
      (JStr (("print('''" +:+ ToString code) +:+ "''')"))
      (<["lang" := JStr "python3"]>
         (<["html-output" := JBool true]>
            (<["prev-lang" := get uiParameters "lang"]> uiParameters)))
      None
  else if isNotNull stdin && negb (String.eqb files "bad_id") then
    mkHandled code
      (<["file-parse" := JStr files]> (<["stdin-parse" := stdin]> uiParameters))
      None
  else
    mkHandled JNull uiParameters (Some userParamsError).

(** [handleButtonClick] from the line that adds prefix and suffix on: the
    standard input and the files are read first, and an error thrown there
    ends the function before anything is changed or shown. *)
Definition runChecked (code : jsval) (uiParameters : gmap string jsval)
    (uploadFiles : list (string * string)) : completion handled :=
  let code := add (add (get uiParameters "prefix") code) (get uiParameters "suffix") in
  match getStdin uiParameters with
  | Throw e => Throw e
  | Normal stdin =>
      match getFiles uiParameters uploadFiles with
      | Throw e => Throw e
      | Normal files => Normal (checked code uiParameters stdin files)
      end
  end.

(** The code after the function named by code-mapper, if there is one;
    calling what is not a function throws. *)
Definition mapCode (code : jsval) (uiParameters : gmap string jsval) : completion jsval :=
  let mapFunc := get uiParameters "code-mapper" in
  if ToBoolean mapFunc then
    match window (ToString mapFunc) with
    | Some f => f code
    | None => Throw TypeError
    end
  else Normal code.

Definition handleButtonClick (code : jsval) (uiParameters : gmap string jsval)
    (uploadFiles : list (string * string)) : completion handled :=
  match mapCode code uiParameters with
  | Throw e => Throw e
  | Normal code => runChecked code uiParameters uploadFiles
  end.

(** The click handler that [addUi] installs: the request that [executeCode]
    sends (if any) and the parameters after the language is put back. *)
Definition click (code : string) (uiParameters : gmap string jsval)
    (uploadFiles : list (string * string))
  : completion (option request * gmap string jsval) :=
  match handleButtonClick (JStr code) uiParameters uploadFiles with
  | Throw e => Throw e
  | Normal h =>
      let uiParameters := parameters h in
      if isNotNull (returned h) then
        Normal (Some (mkRequest (returned h) (get uiParameters "lang")
                        (get uiParameters "stdin-parse") (get uiParameters "file-parse")
                        (get uiParameters "params")),
                <["lang" := if ToBoolean (get uiParameters "prev-lang")
                            then get uiParameters "prev-lang"
                            else get uiParameters "lang"]> uiParameters)
      else Normal (None, uiParameters)
  end.

(** The element named by an id has a value: [$('#' + id).val()] returns,
    and what it returns is truthy. *)
Definition hasValue (id : string) (value : jsval) : Prop :=
  val ("#" +:+ id) = Normal value /\ ToBoolean value = true.

End Page.

(** *** Examples *)

(** A page with one text area, [in], that holds 42; jQuery refuses the
    selector of the id [a!]. *)
Definition examplePage (selector : string) : completion jsval :=
  if String.eqb selector "#in" then Normal (JStr "42")
  else if String.eqb selector "#a!"
       then Throw (Error "Syntax error, unrecognized expression: #a!")
       else Normal JUndefined.



End Run.

Module ClassifierFacts.
Import Classifier.

(** C1: a response whose error field is 1, 2, 3, 4 or 5 is classified by the
    error field alone: access_denied, unknown_language, access_denied,
    submission_limit_reached, sandbox_server_overload respectively, whatever
    the result field (and every other field) holds: a second response with
    the same error field gets the same answer. *)
Theorem diagnose_sandbox_error (r r' : response) :
  1 <= r_error r <= 5 ->
  diagnose r = langstring (spec_sandbox_category (r_error r))
  /\ (r_error r' = r_error r -> diagnose r' = diagnose r)
  /\ (r_error r = 1 -> diagnose r = langstring access_denied)
  /\ (r_error r = 2 -> diagnose r = langstring unknown_language)
  /\ (r_error r = 3 -> diagnose r = langstring access_denied)
  /\ (r_error r = 4 -> diagnose r = langstring submission_limit_reached)
  /\ (r_error r = 5 -> diagnose r = langstring sandbox_server_overload).
Proof.
  intros Hrange. destruct r as [e res c o s], r' as [e' res' c' o' s']. simpl in *.
  unfold diagnose, spec_sandbox_category, ERROR_RESPONSES, RESULT_SUCCESS.
  cbn [diagnose_rows row_matches r_error r_result snd].
  assert (He : e = 1 \/ e = 2 \/ e = 3 \/ e = 4 \/ e = 5) by lia.
  destruct He as [-> | [-> | [-> | [-> | ->]]]]; cbn;
    repeat split; intros; subst; try reflexivity; try discriminate.
Qed.

Lemma diagnose_sandbox_error_witness :
  diagnose (mkResponse 3 15 "" "out" "") = "error_access_denied"
  /\ diagnose (mkResponse 3 99 "" "" "err") = "error_access_denied".
Proof.
  split.
  - apply (diagnose_sandbox_error (mkResponse 3 15 "" "out" "") (mkResponse 3 0 "" "" ""));
      simpl; [lia | reflexivity].
  - apply (diagnose_sandbox_error (mkResponse 3 99 "" "" "err") (mkResponse 3 0 "" "" ""));
      simpl; [lia | reflexivity].
Defined.

(** C2: with error = 0, the results 11, 12 and 15 give the empty category,
    and the results 13, 17, 21 and 30 give timeout, memory_limit,
    sandbox_server_overload and excessive_output respectively. *)
Theorem diagnose_run_result (r : response) :
  r_error r = 0 ->
  (r_result r = 11 \/ r_result r = 12 \/ r_result r = 15 ->
     diagnose r = langstring no_error)
  /\ (r_result r = 13 -> diagnose r = langstring timeout)
  /\ (r_result r = 17 -> diagnose r = langstring memory_limit)
  /\ (r_result r = 21 -> diagnose r = langstring sandbox_server_overload)
  /\ (r_result r = 30 -> diagnose r = langstring excessive_output).
Proof.
  intros He. destruct r as [e res c o s]. simpl in *. subst e.
  unfold diagnose, ERROR_RESPONSES, RESULT_SUCCESS.
  cbn [diagnose_rows row_matches r_error r_result snd].
  repeat split.
  - intros [-> | [-> | ->]]; reflexivity.
  - intros ->; reflexivity.
  - intros ->; reflexivity.
  - intros ->; reflexivity.
  - intros ->; reflexivity.
Qed.

Lemma diagnose_run_result_witness :
  diagnose (mkResponse 0 15 "" "hi" "") = ""
  /\ diagnose (mkResponse 0 13 "" "" "") = "error_timeout".
Proof.
  split.
  - apply (diagnose_run_result (mkResponse 0 15 "" "hi" "")); simpl; auto.
  - apply (diagnose_run_result (mkResponse 0 13 "" "" "")); reflexivity.
Defined.

(** C3: a response that no row of the table matches (error = 0 with a
    result outside 11, 12, 13, 15, 17, 21, 30, or an error outside 0..5) is
    classified unknown_runtime_error. *)
Theorem diagnose_unknown (r : response) :
  (r_error r = 0 /\ ~ In (r_result r) [11; 12; 13; 15; 17; 21; 30])
  \/ ~ In (r_error r) [0; 1; 2; 3; 4; 5] ->
  diagnose r = langstring unknown_runtime_error.
Proof.
  destruct r as [e res c o s]. simpl.
  unfold diagnose, ERROR_RESPONSES, RESULT_SUCCESS.
  cbn [diagnose_rows row_matches r_error r_result snd].
  intros [[-> Hres] | Herr].
  - repeat match goal with
    | |- context [Z.eqb res ?b] => destruct (Z.eqb_spec res b); [exfalso; lia |]
    end.
    reflexivity.
  - repeat match goal with
    | |- context [Z.eqb ?b e] => destruct (Z.eqb_spec b e); [exfalso; lia |]
    end.
    reflexivity.
Qed.

Lemma diagnose_unknown_witness :
  diagnose (mkResponse 0 99 "" "x" "") = "error_unknown_runtime"
  /\ diagnose (mkResponse 7 15 "" "" "") = "error_unknown_runtime".
Proof.
  split.
  - apply (diagnose_unknown (mkResponse 0 99 "" "x" "")). left. simpl.
    split; [reflexivity | intros H; repeat destruct H as [H | H]; discriminate H || exact H].
  - apply (diagnose_unknown (mkResponse 7 15 "" "" "")). right. simpl.
    intros H; repeat destruct H as [H | H]; discriminate H || exact H.
Defined.

(** Whatever the response, the answer is one of the nine language strings. *)
Lemma diagnose_total (r : response) :
  exists c : category, diagnose r = langstring c.
Proof.
  unfold diagnose, ERROR_RESPONSES.
  cbn [diagnose_rows row_matches snd].
  repeat match goal with
  | |- context [if ?b then _ else _] =>
      destruct b;
      [ first [ now exists no_error
              | now exists access_denied
              | now exists unknown_language
              | now exists submission_limit_reached
              | now exists sandbox_server_overload
              | now exists timeout
              | now exists memory_limit
              | now exists excessive_output ] |]
  end.
  now exists unknown_runtime_error.
Qed.

End ClassifierFacts.

(** ** Facts about strings *)

Module StringFacts.

Lemma app_nil_l (s : string) : "" +:+ s = s.
Proof. reflexivity. Qed.

Lemma app_cons (c : ascii) (a b : string) : String c a +:+ b = String c (a +:+ b).
Proof. reflexivity. Qed.

Lemma app_empty_r (s : string) : s +:+ "" = s.
Proof.
  induction s as [| c s IH]; [reflexivity |]. now rewrite app_cons, IH.
Qed.

Lemma app_assoc (a b c : string) : (a +:+ b) +:+ c = a +:+ (b +:+ c).
Proof.
  induction a as [| x a IH]; [reflexivity |]. now rewrite !app_cons, IH.
Qed.

Lemma length_app (a b : string) :
  String.length (a +:+ b) = (String.length a + String.length b)%nat.
Proof.
  induction a as [| x a IH]; [reflexivity |]. rewrite app_cons. cbn. now rewrite IH.
Qed.

Lemma substring_all (s : string) : String.substring 0 (String.length s) s = s.
Proof. induction s as [| c s IH]; cbn; [reflexivity | now rewrite IH]. Qed.

Lemma substring_skip (a b : string) (m : nat) :
  String.substring (String.length a) m (a +:+ b) = String.substring 0 m b.
Proof.
  induction a as [| x a IH]; [reflexivity |]. rewrite app_cons. cbn. exact IH.
Qed.

Lemma length_substring_0 (n : nat) (s : string) :
  (n <= String.length s)%nat -> String.length (String.substring 0 n s) = n.
Proof.
  revert s. induction n as [| n IH]; intros s Hn.
  - destruct s; reflexivity.
  - destruct s as [| c s]; cbn in *; [lia |]. rewrite IH; [reflexivity | lia].
Qed.

Lemma prefix_app (a b : string) : String.prefix a (a +:+ b) = true.
Proof.
  induction a as [| x a IH].
  - destruct b; reflexivity.
  - rewrite app_cons. cbn.
    destruct (ascii_dec x x) as [_ | Hne]; [exact IH | now destruct Hne].
Qed.

End StringFacts.

(** ** Facts about output assembly *)

Module OutputFacts.
Import Classifier Output StringFacts.

Lemma endsWith_app (a b : string) : endsWith (a +:+ b) b = true.
Proof.
  unfold endsWith. rewrite length_app.
  replace (String.length a + String.length b - String.length b)%nat
    with (String.length a) by lia.
  rewrite substring_skip, substring_all, String.eqb_refl.
  rewrite andb_true_r. apply Nat.leb_le. lia.
Qed.

(** Within range, [substr] from 0 is the prefix of the requested length. *)
Lemma substr_prefix (s : string) (maxLen : Z) :
  0 <= maxLen <= Z.of_nat (String.length s) ->
  substr s 0 maxLen = String.substring 0 (Z.to_nat maxLen) s.
Proof.
  intros H. unfold substr. change (0 <? 0) with false. cbv zeta iota.
  rewrite (Z.min_l 0) by lia. rewrite (Z.max_l maxLen 0) by lia.
  rewrite (Z.min_l maxLen) by lia. rewrite Z.add_0_l, (Z.min_l maxLen) by lia.
  rewrite Z.sub_0_r. reflexivity.
Qed.

(** A negative length selects nothing. *)
Lemma substr_negative (s : string) (maxLen : Z) :
  maxLen < 0 -> substr s 0 maxLen = "".
Proof.
  intros H. unfold substr. change (0 <? 0) with false. cbv zeta iota.
  rewrite (Z.min_l 0) by lia. rewrite (Z.max_r maxLen 0) by lia.
  rewrite (Z.min_l 0) by lia. rewrite Z.add_0_l, (Z.min_l 0) by lia.
  destruct s; reflexivity.
Qed.

Lemma length_substr (s : string) (maxLen : Z) :
  0 <= maxLen <= Z.of_nat (String.length s) ->
  Z.of_nat (String.length (substr s 0 maxLen)) = maxLen.
Proof.
  intros H. rewrite substr_prefix by exact H.
  rewrite length_substring_0 by lia. lia.
Qed.

Lemma limit_short (maxLen : Z) (s : string) :
  Z.of_nat (String.length s) <= maxLen -> limit maxLen s = s.
Proof.
  intros H. unfold limit. destruct (Z.leb_spec (Z.of_nat (String.length s)) maxLen);
    [reflexivity | lia].
Qed.

Lemma limit_long (maxLen : Z) (s : string) :
  maxLen < Z.of_nat (String.length s) ->
  limit maxLen s = substr s 0 maxLen +:+ "... (truncated)".
Proof.
  intros H. unfold limit. destruct (Z.leb_spec (Z.of_nat (String.length s)) maxLen);
    [lia | reflexivity].
Qed.

(** With a negative maximum every string is cut down to the marker. *)
Lemma limit_negative (maxLen : Z) (s : string) :
  maxLen < 0 -> limit maxLen s = "... (truncated)".
Proof.
  intros H. rewrite limit_long by lia. now rewrite substr_negative by exact H.
Qed.

Lemma combinedOutput_eq (r : response) (maxLen : Z) :
  combinedOutput r maxLen
  = r_cmpinfo r +:+ (limit maxLen (r_output r) +:+ limit maxLen (r_stderr r)).
Proof. unfold combinedOutput. apply app_assoc. Qed.

Lemma done_plain_text (htmlOutput : bool) (maxLen : Z) (r : response) :
  diagnose r = "" ->
  htmlOutput = false \/ r_result r <> RESULT_SUCCESS ->
  done htmlOutput maxLen r
  = mkRendering (combinedOutput r maxLen) "" None
      (if negb (r_result r =? RESULT_SUCCESS) then "#ffd" else "#eff") "10px".
Proof.
  intros Hcat Hplain. unfold done. rewrite Hcat. cbn [String.eqb].
  destruct Hplain as [-> | Hres]; [reflexivity |].
  destruct (Z.eqb_spec (r_result r) RESULT_SUCCESS) as [Heq | _]; [contradiction |].
  cbn [negb]. now rewrite orb_true_r.
Qed.

Lemma done_html (maxLen : Z) (r : response) :
  diagnose r = "" ->
  r_result r = RESULT_SUCCESS ->
  done true maxLen r = mkRendering "" "" (Some (r_output r)) "#eff" "0px".
Proof.
  intros Hcat Hres. unfold done. rewrite Hcat, Hres. reflexivity.
Qed.

(** C4 (as stated, refuted), twice over. With html output on and the run
    result 15 the category is empty, yet the text handed to the display is
    empty and response.output goes into the page as it is, uncut: nothing is
    concatenated. And with the integer maximum length -1 the output [ab] is
    longer than the maximum, but what [limit] returns is the marker alone, 15
    characters long and not -1 + 15. *)
Lemma empty_category_output_as_stated :
  (diagnose (mkResponse 0 15 "warning" "<b>abcdef</b>" "") = ""
   /\ text (done true 3 (mkResponse 0 15 "warning" "<b>abcdef</b>" "")) = ""
   /\ htmlAfter (done true 3 (mkResponse 0 15 "warning" "<b>abcdef</b>" ""))
      = Some "<b>abcdef</b>"
   /\ text (done true 3 (mkResponse 0 15 "warning" "<b>abcdef</b>" ""))
      <> "warning" +:+ (limit 3 "<b>abcdef</b>" +:+ limit 3 ""))
  /\ (diagnose (mkResponse 0 15 "" "ab" "") = ""
      /\ -1 < Z.of_nat (String.length (r_output (mkResponse 0 15 "" "ab" "")))
      /\ limit (-1) (r_output (mkResponse 0 15 "" "ab" "")) = "... (truncated)"
      /\ text (done false (-1) (mkResponse 0 15 "" "ab" ""))
         = "... (truncated)... (truncated)"
      /\ Z.of_nat (String.length (limit (-1) (r_output (mkResponse 0 15 "" "ab" ""))))
         <> -1 + Z.of_nat (String.length "... (truncated)")).
Proof.
  split.
  - split; [reflexivity |]. split; [reflexivity |]. split; [reflexivity |].
    vm_compute. intros H. discriminate H.
  - split; [reflexivity |]. split; [reflexivity |]. split; [reflexivity |].
    split; [reflexivity |]. vm_compute. intros H. discriminate H.
Qed.

(** C4 (amended): for every response that [diagnose] puts in the empty
    category and every non-negative maximum length, the [done] callback hands
    to the display, with no language string and no html, the text cmpinfo
    followed by the limited output and the limited stderr, each limited on
    its own, unless html output is on and the run result is 15: then the text
    is empty and response.output is inserted as html, uncut. A string no
    longer than maxLen is kept by [limit], and a longer one becomes its first
    maxLen characters followed by the marker, so that it ends with the marker
    and has length maxLen + length of the marker. *)
Theorem empty_category_output (htmlOutput : bool) (r : response) (maxLen : Z) :
  0 <= maxLen ->
  diagnose r = "" ->
  (htmlOutput = false \/ r_result r <> RESULT_SUCCESS ->
     text (done htmlOutput maxLen r)
     = r_cmpinfo r +:+ (limit maxLen (r_output r) +:+ limit maxLen (r_stderr r))
     /\ langString (done htmlOutput maxLen r) = ""
     /\ htmlAfter (done htmlOutput maxLen r) = None)
  /\ (htmlOutput = true -> r_result r = RESULT_SUCCESS ->
      text (done htmlOutput maxLen r) = ""
      /\ langString (done htmlOutput maxLen r) = ""
      /\ htmlAfter (done htmlOutput maxLen r) = Some (r_output r))
  /\ (forall s : string,
        (Z.of_nat (String.length s) <= maxLen -> limit maxLen s = s)
        /\ (maxLen < Z.of_nat (String.length s) ->
            limit maxLen s
            = String.substring 0 (Z.to_nat maxLen) s +:+ "... (truncated)"
            /\ endsWith (limit maxLen s) "... (truncated)" = true
            /\ Z.of_nat (String.length (limit maxLen s))
               = maxLen + Z.of_nat (String.length "... (truncated)"))).
Proof.
  intros Hpos Hcat. split; [| split].
  - intros Hplain. rewrite (done_plain_text htmlOutput maxLen r Hcat Hplain).
    cbn [text langString htmlAfter]. split; [apply combinedOutput_eq | split; reflexivity].
  - intros -> Hres. rewrite (done_html maxLen r Hcat Hres).
    cbn [text langString htmlAfter]. repeat split.
  - intros s. split; [apply limit_short |].
    intros Hlong. rewrite limit_long by exact Hlong.
    split; [| split].
    + now rewrite substr_prefix by lia.
    + apply endsWith_app.
    + rewrite length_app, Nat2Z.inj_add, length_substr by lia. reflexivity.
Qed.

Lemma empty_category_output_witness :
  text (done false 3 (mkResponse 0 15 "cmp" "abcdef" "xy")) = "cmpabc... (truncated)xy"
  /\ text (done true 3 (mkResponse 0 12 "cmp" "abcdef" "xy")) = "cmpabc... (truncated)xy"
  /\ htmlAfter (done true 3 (mkResponse 0 15 "cmp" "abcdef" "xy")) = Some "abcdef"
  /\ Z.of_nat (String.length (limit 3 "abcdef")) = 3 + 15.
Proof.
  assert (Hpos : 0 <= 3) by lia.
  destruct (empty_category_output false (mkResponse 0 15 "cmp" "abcdef" "xy") 3 Hpos eq_refl)
    as (Hplain & _ & Hlim).
  destruct (empty_category_output true (mkResponse 0 12 "cmp" "abcdef" "xy") 3 Hpos eq_refl)
    as (Hfailed & _ & _).
  destruct (empty_category_output true (mkResponse 0 15 "cmp" "abcdef" "xy") 3 Hpos eq_refl)
    as (_ & Hhtml & _).
  split; [| split; [| split]].
  - destruct Hplain as (Htext & _ & _); [left; reflexivity |]. rewrite Htext. reflexivity.
  - destruct Hfailed as (Htext & _ & _); [right; discriminate |]. rewrite Htext. reflexivity.
  - destruct Hhtml as (_ & _ & Hafter); [reflexivity | reflexivity |]. exact Hafter.
  - destruct (Hlim "abcdef") as [_ Hlong].
    apply Hlong. vm_compute. reflexivity.
Defined.

(** C10: truncation is strict at the boundary. A string whose length is at
    most maxLen (in particular exactly maxLen) comes back unchanged; [limit]
    changes a string only when it is strictly longer than maxLen, and then the
    result is the cut string followed by the marker; cmpinfo is never cut: it
    is a prefix of the assembled output in full, whatever its length. *)
Theorem limit_boundary (maxLen : Z) (s : string) (r : response) :
  (Z.of_nat (String.length s) = maxLen -> limit maxLen s = s)
  /\ (Z.of_nat (String.length s) <= maxLen -> limit maxLen s = s)
  /\ (limit maxLen s <> s -> maxLen < Z.of_nat (String.length s))
  /\ (maxLen < Z.of_nat (String.length s) ->
      limit maxLen s = substr s 0 maxLen +:+ "... (truncated)")
  /\ combinedOutput r maxLen
     = r_cmpinfo r +:+ (limit maxLen (r_output r) +:+ limit maxLen (r_stderr r))
  /\ String.prefix (r_cmpinfo r) (combinedOutput r maxLen) = true.
Proof.
  repeat split.
  - intros H. apply limit_short. lia.
  - apply limit_short.
  - intros Hne. destruct (Z.le_gt_cases (Z.of_nat (String.length s)) maxLen) as [Hle | Hgt];
      [| exact Hgt]. now destruct Hne; apply limit_short.
  - apply limit_long.
  - apply combinedOutput_eq.
  - rewrite combinedOutput_eq. apply prefix_app.
Qed.

Lemma limit_boundary_witness :
  limit 3 "abc" = "abc"
  /\ limit 3 "abcd" = "abc... (truncated)"
  /\ String.prefix "a long compiler message"
       (combinedOutput (mkResponse 0 11 "a long compiler message" "" "") 3) = true.
Proof.
  pose proof (limit_boundary 3 "abc" (mkResponse 0 11 "a long compiler message" "" ""))
    as (Heq & _ & _ & _ & _ & Hcmp).
  pose proof (limit_boundary 3 "abcd" (mkResponse 0 11 "" "" ""))
    as (_ & _ & _ & Hlong & _ & _).
  split; [apply Heq; reflexivity |].
  split; [rewrite Hlong by (vm_compute; reflexivity); reflexivity |].
  exact Hcmp.
Defined.

(** *** The text shown to the user *)

Lemma escapeHtml_app (a b : string) :
  escapeHtml (a +:+ b) = escapeHtml a +:+ escapeHtml b.
Proof.
  induction a as [| c a IH]; [reflexivity |].
  rewrite app_cons. cbn [escapeHtml]. now rewrite IH, app_assoc.
Qed.

Lemma escapeChar_digit (n : N) :
  escapeChar (pretty_N_char n) = String (pretty_N_char n) "".
Proof. unfold pretty_N_char. repeat case_match; reflexivity. Qed.

(** The decimal digits of a number pass through [escapeHtml] unchanged. *)
Lemma escapeHtml_pretty_N_go (x : N) (s : string) :
  escapeHtml (pretty_N_go x s) = pretty_N_go x (escapeHtml s).
Proof.
  revert s. induction (N.lt_wf_0 x) as [x _ IH]. intros s.
  destruct (N.eq_dec x 0%N) as [-> | Hx].
  - now rewrite !pretty_N_go_0.
  - rewrite (pretty_N_go_step x s), (pretty_N_go_step x (escapeHtml s)) by lia.
    rewrite IH by (apply N.div_lt; lia).
    cbn [escapeHtml]. rewrite escapeChar_digit. reflexivity.
Qed.

Lemma escapeHtml_pretty_positive (p : positive) :
  escapeHtml (pretty p) = pretty p.
Proof.
  unfold pretty, pretty_positive, pretty, pretty_N.
  destruct (decide (N.pos p = 0%N)) as [Hp | _]; [discriminate Hp |].
  apply escapeHtml_pretty_N_go.
Qed.

Lemma escapeHtml_pretty_Z (z : Z) : escapeHtml (pretty z) = pretty z.
Proof.
  destruct z as [| p | p]; unfold pretty, pretty_Z.
  - reflexivity.
  - apply escapeHtml_pretty_positive.
  - rewrite escapeHtml_app, escapeHtml_pretty_positive. reflexivity.
Qed.

Lemma done_error_branch (htmlOutput : bool) (maxLen : Z) (r : response) :
  diagnose r <> "" ->
  done htmlOutput maxLen r
  = mkRendering (extraText r maxLen (diagnose r)) (diagnose r) None "#ffd" "10px".
Proof.
  intros Hne. unfold done.
  destruct (String.eqb_spec (diagnose r) "") as [Heq | _]; [contradiction | reflexivity].
Qed.

Lemma extraText_unknown_sandbox (maxLen : Z) (r : response) :
  r_error r <> 0 ->
  extraText r maxLen "error_unknown_runtime"
  = ("(Sandbox error code " +:+ pretty (r_error r)) +:+ ")".
Proof.
  intros He. unfold extraText.
  destruct (Z.eqb_spec (r_error r) 0) as [H0 | _]; [contradiction | reflexivity].
Qed.

Lemma extraText_unknown_run (maxLen : Z) (r : response) :
  r_error r = 0 ->
  extraText r maxLen "error_unknown_runtime"
  = combinedOutput r maxLen +:+ (("(Run result: " +:+ pretty (r_result r)) +:+ ")").
Proof.
  intros He. unfold extraText. rewrite He. reflexivity.
Qed.

Lemma extraText_known (maxLen : Z) (r : response) (error : string) :
  error <> "error_unknown_runtime" ->
  extraText r maxLen error = if r_error r =? 0 then combinedOutput r maxLen else "".
Proof.
  intros Hne. unfold extraText.
  destruct (String.eqb_spec error "error_unknown_runtime") as [Heq | _];
    [contradiction | reflexivity].
Qed.

Section PresentedText.

Variable get_string : string -> string.

Lemma displayTextOutput_error (text langString : string) :
  langString <> "" ->
  displayTextOutput get_string text langString
  = escapeHtml (banner get_string langString) +:+ escapeHtml text.
Proof.
  intros Hne. unfold displayTextOutput.
  destruct (String.eqb_spec langString "") as [Heq | _]; [contradiction |].
  cbn [negb]. apply escapeHtml_app.
Qed.

(** C8: the text handed to the display carries a raw code exactly for the
    category unknown_runtime_error: the sandbox error code when
    response.error is not 0, the run result (after the combined output) when
    response.error is 0. Every other non-empty category gets the combined
    output (error = 0) or nothing (error not 0) and no code, and the empty
    category gets no code either. The html shown is the escaped banner of the
    category followed by that text, the code itself unchanged by escaping. *)
Theorem raw_code_suffix (htmlOutput : bool) (maxLen : Z) (r : response) :
  (diagnose r = langstring unknown_runtime_error -> r_error r <> 0 ->
     text (done htmlOutput maxLen r)
     = ("(Sandbox error code " +:+ pretty (r_error r)) +:+ ")"
     /\ presented get_string htmlOutput maxLen r
        = escapeHtml (banner get_string "error_unknown_runtime")
          +:+ (("(Sandbox error code " +:+ pretty (r_error r)) +:+ ")"))
  /\ (diagnose r = langstring unknown_runtime_error -> r_error r = 0 ->
     text (done htmlOutput maxLen r)
     = combinedOutput r maxLen +:+ (("(Run result: " +:+ pretty (r_result r)) +:+ ")")
     /\ presented get_string htmlOutput maxLen r
        = escapeHtml (banner get_string "error_unknown_runtime")
          +:+ (escapeHtml (combinedOutput r maxLen)
               +:+ (("(Run result: " +:+ pretty (r_result r)) +:+ ")")))
  /\ (diagnose r <> "" -> diagnose r <> langstring unknown_runtime_error ->
     text (done htmlOutput maxLen r)
     = (if r_error r =? 0 then combinedOutput r maxLen else "")
     /\ presented get_string htmlOutput maxLen r
        = escapeHtml (banner get_string (diagnose r))
          +:+ escapeHtml (if r_error r =? 0 then combinedOutput r maxLen else ""))
  /\ (diagnose r = "" ->
     (text (done htmlOutput maxLen r) = combinedOutput r maxLen
      \/ text (done htmlOutput maxLen r) = "")
     /\ presented get_string htmlOutput maxLen r
        = escapeHtml (text (done htmlOutput maxLen r))).
Proof.
  split; [| split; [| split]].
  - intros Hcat Herr. unfold presented.
    rewrite done_error_branch by (rewrite Hcat; discriminate).
    cbn [text langString]. rewrite Hcat. cbn [langstring].
    rewrite extraText_unknown_sandbox by exact Herr.
    split; [reflexivity |].
    rewrite displayTextOutput_error by discriminate.
    rewrite !escapeHtml_app, escapeHtml_pretty_Z. reflexivity.
  - intros Hcat Herr. unfold presented.
    rewrite done_error_branch by (rewrite Hcat; discriminate).
    cbn [text langString]. rewrite Hcat. cbn [langstring].
    rewrite extraText_unknown_run by exact Herr.
    split; [reflexivity |].
    rewrite displayTextOutput_error by discriminate.
    rewrite !escapeHtml_app, escapeHtml_pretty_Z. reflexivity.
  - intros Hne Hkn. unfold presented.
    rewrite done_error_branch by exact Hne.
    cbn [text langString]. rewrite extraText_known by exact Hkn.
    split; [reflexivity |].
    now rewrite displayTextOutput_error by exact Hne.
  - intros Hcat. unfold presented, done. rewrite Hcat. cbn [String.eqb].
    destruct (negb htmlOutput || negb (r_result r =? RESULT_SUCCESS));
      cbn [text langString]; split; auto.
Qed.

End PresentedText.

Lemma raw_code_suffix_witness :
  presented (fun key => key) false 30000 (mkResponse 0 99 "" "x" "")
  = escapeHtml (banner (fun key => key) "error_unknown_runtime") +:+ "x(Run result: 99)"
  /\ presented (fun key => key) false 30000 (mkResponse 9 15 "" "x" "")
     = escapeHtml (banner (fun key => key) "error_unknown_runtime")
       +:+ "(Sandbox error code 9)"
  /\ text (done false 30000 (mkResponse 5 0 "" "x" "")) = ""
  /\ text (done false 30000 (mkResponse 0 15 "" "hi" "")) = "hi".
Proof.
  pose proof (raw_code_suffix (fun key => key) false 30000 (mkResponse 0 99 "" "x" ""))
    as (_ & Hrun & _ & _).
  pose proof (raw_code_suffix (fun key => key) false 30000 (mkResponse 9 15 "" "x" ""))
    as (Hsandbox & _ & _ & _).
  pose proof (raw_code_suffix (fun key => key) false 30000 (mkResponse 5 0 "" "x" ""))
    as (_ & _ & Hknown & _).
  split; [| split; [| split]].
  - destruct Hrun as [_ Hshown]; [reflexivity | reflexivity |]. exact Hshown.
  - destruct Hsandbox as [_ Hshown]; [reflexivity | discriminate |]. exact Hshown.
  - destruct Hknown as [Htext _]; [discriminate | discriminate |]. exact Htext.
  - reflexivity.
Defined.

End OutputFacts.

(** ** Facts about the parameter resolver *)

Module ResolverFacts.
Import Resolver StringFacts.

(** The loop gives every own key of the defaults its value, and no other key. *)
Lemma collectParams_lookup (pre : element) (defaults : gmap string jsval) (K : string) :
  collectParams pre defaults !! K = paramValue pre K <$> defaults !! K.
Proof.
  unfold collectParams. revert K.
  apply (map_fold_weak_ind
           (fun (acc : gmap string jsval) (m : gmap string jsval) =>
              forall K : string, acc !! K = paramValue pre K <$> m !! K)).
  - intros K. now rewrite !lookup_empty.
  - intros i x m acc Hfresh IH K.
    destruct (decide (i = K)) as [-> | Hne].
    + now rewrite !lookup_insert_eq.
    + rewrite !lookup_insert_ne by exact Hne. apply IH.
Qed.

Lemma languageFromClass_other (ui : gmap string jsval) (attribute K : string) :
  K <> "lang" -> languageFromClass ui attribute !! K = ui !! K.
Proof.
  intros Hne. unfold languageFromClass.
  destruct (startsWith attribute "language"); [| reflexivity].
  apply lookup_insert_ne. congruence.
Qed.

Lemma forEach_other (tokens : list string) (ui : gmap string jsval) (K : string) :
  K <> "lang" -> fold_left languageFromClass tokens ui !! K = ui !! K.
Proof.
  intros Hne. revert ui.
  induction tokens as [| tok tokens IH]; intros ui; cbn [fold_left]; [reflexivity |].
  rewrite IH. now apply languageFromClass_other.
Qed.

(** The last token that begins with language decides lang. *)
Lemma forEach_lang (tokens : list string) (ui : gmap string jsval) :
  fold_left languageFromClass tokens ui !! "lang"
  = match last (List.filter (fun t => startsWith t "language") tokens) with
    | Some tok => Some (JStr (replace "language-" "" tok))
    | None => ui !! "lang"
    end.
Proof.
  revert ui.
  induction tokens as [| tok tokens IH]; intros ui; cbn [fold_left List.filter];
    [reflexivity |].
  rewrite IH. unfold languageFromClass.
  destruct (startsWith tok "language") eqn:Htok; [| reflexivity].
  rewrite last_cons.
  destruct (last (List.filter (fun t => startsWith t "language") tokens));
    [reflexivity | apply lookup_insert_eq].
Qed.

(** When the class entry resolves to a string, the function returns. *)
Lemma getUiParameters_returns (pre : element) (defaults : gmap string jsval)
    (dcls : jsval) (cls : string) :
  defaults !! "class" = Some dcls ->
  paramValue pre "class" dcls = JStr cls ->
  getUiParameters pre defaults
  = Normal (fold_left languageFromClass (split " " cls) (collectParams pre defaults)).
Proof.
  intros Hd Hv. unfold getUiParameters.
  rewrite collectParams_lookup, Hd. cbn [fmap option_fmap option_map]. now rewrite Hv.
Qed.

(** And only then. *)
Lemma getUiParameters_Normal_inv (pre : element) (defaults cfg : gmap string jsval) :
  getUiParameters pre defaults = Normal cfg ->
  exists (dcls : jsval) (cls : string),
    defaults !! "class" = Some dcls /\ paramValue pre "class" dcls = JStr cls.
Proof.
  unfold getUiParameters. rewrite collectParams_lookup.
  destruct (defaults !! "class") as [dcls |]; cbn [fmap option_fmap option_map];
    [| discriminate].
  destruct (paramValue pre "class" dcls) eqn:Hv; try discriminate.
  intros _. eauto.
Qed.

(** An attribute value for class is used as it is. *)
Lemma paramValue_class_string (pre : element) (c : string) :
  exists cls : string, paramValue pre "class" (JStr c) = JStr cls.
Proof.
  unfold paramValue. destruct (namedAttr pre "class") as [value |]; eauto.
Qed.

Lemma Normal_inj {A : Type} (a b : A) : Normal a = Normal b -> a = b.
Proof. intros H. now injection H. Qed.

(** *** Completeness of the resolved configuration *)

(** C5 (as stated, refuted): an interactive block whose class carries the
    token language-c and which has no lang attribute. No override is found
    for lang, whose default is python3, yet the resolved lang is c. *)
Lemma lang_default_replaced_by_class :
  namedAttr (elementOf [("class", "ace-interactive-code language-c")]) "lang" = None
  /\ interactiveDefaults (mkConfig (JStr "Try it!") (JNum (Int 0))) !! "lang"
     = Some (JStr "python3")
  /\ (exists cfg : gmap string jsval,
        getUiParameters (elementOf [("class", "ace-interactive-code language-c")])
          (interactiveDefaults (mkConfig (JStr "Try it!") (JNum (Int 0)))) = Normal cfg
        /\ cfg !! "lang" = Some (JStr "c"))
  /\ ~ spec_resolved (elementOf [("class", "ace-interactive-code language-c")])
        (interactiveDefaults (mkConfig (JStr "Try it!") (JNum (Int 0)))).
Proof.
  assert (Hget :
    getUiParameters (elementOf [("class", "ace-interactive-code language-c")])
      (interactiveDefaults (mkConfig (JStr "Try it!") (JNum (Int 0))))
    = Normal (fold_left languageFromClass (split " " "ace-interactive-code language-c")
                (collectParams (elementOf [("class", "ace-interactive-code language-c")])
                   (interactiveDefaults (mkConfig (JStr "Try it!") (JNum (Int 0))))))).
  { apply (getUiParameters_returns _ _ (JStr "ace_interactive_code")); reflexivity. }
  split; [reflexivity |]. split; [reflexivity |]. split.
  - eexists. split; [exact Hget |]. rewrite forEach_lang. reflexivity.
  - intros (cfg & Hcfg & Hall). pose proof (eq_trans (eq_sym Hget) Hcfg) as Heq.
    apply Normal_inj in Heq.
    destruct (Hall "lang" (JStr "python3")) as [_ Hkeep]; [reflexivity |].
    specialize (Hkeep eq_refl). rewrite <- Heq, forEach_lang in Hkeep.
    vm_compute in Hkeep. discriminate Hkeep.
Qed.

(** C5 (amended): whenever the class entry of the defaults resolves to a
    string, the function returns a configuration with a value for every key
    of the defaults; a key other than lang for which no attribute is found
    keeps its default, and so does lang when no token of the resolved class
    begins with language. *)
Theorem resolved_has_every_default (pre : element) (defaults : gmap string jsval)
    (dcls : jsval) (cls : string) :
  defaults !! "class" = Some dcls ->
  paramValue pre "class" dcls = JStr cls ->
  exists cfg : gmap string jsval,
    getUiParameters pre defaults = Normal cfg
    /\ (forall K : string, is_Some (defaults !! K) -> is_Some (cfg !! K))
    /\ (forall (K : string) (dflt : jsval),
          defaults !! K = Some dflt -> namedAttr pre K = None -> K <> "lang" ->
          cfg !! K = Some dflt)
    /\ (forall dflt : jsval,
          defaults !! "lang" = Some dflt -> namedAttr pre "lang" = None ->
          languageTokens cls = [] ->
          cfg !! "lang" = Some dflt).
Proof.
  intros Hd Hv. eexists. split; [exact (getUiParameters_returns _ _ _ _ Hd Hv) |].
  split; [| split].
  - intros K [dflt HK]. destruct (decide (K = "lang")) as [-> | Hne].
    + rewrite forEach_lang.
      destruct (last _); [eauto |]. rewrite collectParams_lookup, HK. cbn. eauto.
    + rewrite forEach_other, collectParams_lookup, HK by exact Hne. cbn. eauto.
  - intros K dflt HK Hattr Hne.
    rewrite forEach_other, collectParams_lookup, HK by exact Hne.
    cbn. unfold paramValue. now rewrite Hattr.
  - intros dflt HK Hattr Htok. rewrite forEach_lang.
    unfold languageTokens in Htok. rewrite Htok. cbn [last].
    rewrite collectParams_lookup, HK. cbn. unfold paramValue. now rewrite Hattr.
Qed.

Lemma resolved_has_every_default_witness :
  exists cfg : gmap string jsval,
    getUiParameters (elementOf [("data-lang", "c"); ("hidden", "")])
      (interactiveDefaults (mkConfig (JStr "Try it!") (JNum (Int 0)))) = Normal cfg
    /\ cfg !! "font-size" = Some (JStr "11pt")
    /\ is_Some (cfg !! "max-output-length").
Proof.
  destruct (resolved_has_every_default
              (elementOf [("data-lang", "c"); ("hidden", "")])
              (interactiveDefaults (mkConfig (JStr "Try it!") (JNum (Int 0))))
              (JStr "ace_interactive_code") "ace_interactive_code")
    as (cfg & Hget & Hall & Hkeep & _); [reflexivity | reflexivity |].
  exists cfg. split; [exact Hget |]. split.
  - apply Hkeep; [reflexivity | reflexivity | discriminate].
  - apply Hall. vm_compute. eauto.
Defined.

(** *** Coercion of the attribute values *)

Lemma paramValue_found (pre : element) (K value : string) (dflt : jsval) :
  namedAttr pre K = Some value -> paramValue pre K dflt = coerce K value.
Proof. intros H. unfold paramValue. now rewrite H. Qed.

Lemma paramValue_absent (pre : element) (K : string) (dflt : jsval) :
  namedAttr pre K = None -> paramValue pre K dflt = dflt.
Proof. intros H. unfold paramValue. now rewrite H. Qed.

Lemma lowerChar_n (c : ascii) : Ascii.eqb (lowerChar c) "n" = isLetter "n" "N" c.
Proof. destruct c as [[] [] [] [] [] [] [] []]; reflexivity. Qed.

Lemma lowerChar_o (c : ascii) : Ascii.eqb (lowerChar c) "o" = isLetter "o" "O" c.
Proof. destruct c as [[] [] [] [] [] [] [] []]; reflexivity. Qed.

Lemma lowerChar_e (c : ascii) : Ascii.eqb (lowerChar c) "e" = isLetter "e" "E" c.
Proof. destruct c as [[] [] [] [] [] [] [] []]; reflexivity. Qed.

(** The test of the code, [value.toLowerCase() === 'none'], holds exactly
    for the sixteen spellings of none. *)
Lemma toLowerCase_none (value : string) :
  String.eqb (toLowerCase value) "none" = isNoneAnyCase value.
Proof.
  destruct value as [| c1 [| c2 [| c3 [| c4 [| c5 rest]]]]];
    cbn [toLowerCase String.eqb isNoneAnyCase];
    rewrite ?lowerChar_n, ?lowerChar_o, ?lowerChar_e;
    repeat match goal with
           | |- context [isLetter ?l ?u ?c] => destruct (isLetter l u c)
           end;
    reflexivity.
Qed.

(** The value that the function gives to a key other than lang. *)
Lemma resolved_key (pre : element) (defaults : gmap string jsval)
    (tokens : list string) (K : string) (dflt : jsval) :
  K <> "lang" ->
  defaults !! K = Some dflt ->
  fold_left languageFromClass tokens (collectParams pre defaults) !! K
  = Some (paramValue pre K dflt).
Proof.
  intros Hne HK. now rewrite forEach_other, collectParams_lookup, HK by exact Hne.
Qed.

Lemma coerce_start_line_number (value : string) :
  coerce "start-line-number" value
  = if isNoneAnyCase value then JNull else JNum (parseInt value).
Proof.
  unfold coerce. cbn [String.eqb Ascii.eqb Bool.eqb]. cbv iota.
  now rewrite toLowerCase_none.
Qed.

Lemma coerce_lines (K value : string) :
  K = "min-lines" \/ K = "max-lines" -> coerce K value = JNum (parseInt value).
Proof. intros [-> | ->]; reflexivity. Qed.

Lemma coerce_hidden (value : string) : coerce "hidden" value = JBool true.
Proof. reflexivity. Qed.

(** C6: when the function returns (the class entry resolves to a string) and
    an attribute is found for a key K of the defaults, the resolved value is:
    for start-line-number, null if the attribute value is none in any letter
    case and otherwise the integer parse of the value; for min-lines and
    max-lines, the integer parse; for hidden, the boolean true whatever the
    value. With no hidden attribute the default of hidden is kept. *)
Theorem override_coercion (pre : element) (defaults : gmap string jsval)
    (dcls : jsval) (cls : string) :
  defaults !! "class" = Some dcls ->
  paramValue pre "class" dcls = JStr cls ->
  exists cfg : gmap string jsval,
    getUiParameters pre defaults = Normal cfg
    /\ (forall value : string,
          is_Some (defaults !! "start-line-number") ->
          namedAttr pre "start-line-number" = Some value ->
          cfg !! "start-line-number"
          = Some (if isNoneAnyCase value then JNull else JNum (parseInt value)))
    /\ (forall K value : string,
          K = "min-lines" \/ K = "max-lines" ->
          is_Some (defaults !! K) ->
          namedAttr pre K = Some value ->
          cfg !! K = Some (JNum (parseInt value)))
    /\ (forall value : string,
          is_Some (defaults !! "hidden") ->
          namedAttr pre "hidden" = Some value ->
          cfg !! "hidden" = Some (JBool true))
    /\ (forall dflt : jsval,
          defaults !! "hidden" = Some dflt ->
          namedAttr pre "hidden" = None ->
          cfg !! "hidden" = Some dflt).
Proof.
  intros Hd Hv. eexists. split; [exact (getUiParameters_returns _ _ _ _ Hd Hv) |].
  split; [| split; [| split]].
  - intros value [dflt HK] Hattr.
    rewrite (resolved_key _ _ _ _ dflt) by (discriminate || exact HK).
    now rewrite (paramValue_found _ _ _ _ Hattr), coerce_start_line_number.
  - intros K value HK [dflt Hdef] Hattr.
    rewrite (resolved_key _ _ _ _ dflt)
      by (exact Hdef || (destruct HK as [-> | ->]; discriminate)).
    now rewrite (paramValue_found _ _ _ _ Hattr), coerce_lines.
  - intros value [dflt HK] Hattr.
    rewrite (resolved_key _ _ _ _ dflt) by (discriminate || exact HK).
    now rewrite (paramValue_found _ _ _ _ Hattr).
  - intros dflt HK Hattr.
    rewrite (resolved_key _ _ _ _ dflt) by (discriminate || exact HK).
    now rewrite (paramValue_absent _ _ _ Hattr).
Qed.

Lemma override_coercion_witness :
  exists cfg : gmap string jsval,
    getUiParameters
      (elementOf [("data-start-line-number", "NoNe"); ("min-lines", "3");
                  ("max-lines", "12px"); ("hidden", "false")])
      (interactiveDefaults (mkConfig (JStr "Try it!") (JNum (Int 0)))) = Normal cfg
    /\ cfg !! "start-line-number" = Some JNull
    /\ cfg !! "min-lines" = Some (JNum (Int 3))
    /\ cfg !! "max-lines" = Some (JNum (Int 12))
    /\ cfg !! "hidden" = Some (JBool true).
Proof.
  destruct (override_coercion
              (elementOf [("data-start-line-number", "NoNe"); ("min-lines", "3");
                          ("max-lines", "12px"); ("hidden", "false")])
              (interactiveDefaults (mkConfig (JStr "Try it!") (JNum (Int 0))))
              (JStr "ace_interactive_code") "ace_interactive_code")
    as (cfg & Hget & Hstart & Hlines & Hhidden & _); [reflexivity | reflexivity |].
  exists cfg. split; [exact Hget |].
  split; [| split; [| split]].
  - apply (Hstart "NoNe"); [vm_compute; eauto | reflexivity].
  - apply (Hlines "min-lines" "3"); [now left | vm_compute; eauto | reflexivity].
  - apply (Hlines "max-lines" "12px"); [now right | vm_compute; eauto | reflexivity].
  - apply (Hhidden "false"); [vm_compute; eauto | reflexivity].
Defined.

(** *** The language taken from the class *)

Lemma replace_language_prefix (rest : string) :
  replace "language-" "" ("language-" +:+ rest) = rest.
Proof. destruct rest; reflexivity. Qed.

(** C7 (as stated, refuted): for the class value [ace-highlight-code language-c]
    the resolved lang is c, while the remainder of the token language-c
    after the prefix language is -c. *)
Lemma lang_is_not_remainder_after_language :
  (exists cfg : gmap string jsval,
     getUiParameters (elementOf [("class", "ace-highlight-code language-c")])
       (highlightDefaults (mkConfig JNull (JNum (Int 0)))) = Normal cfg
     /\ cfg !! "lang" = Some (JStr "c"))
  /\ spec_postProcess
       (collectParams (elementOf [("class", "ace-highlight-code language-c")])
          (highlightDefaults (mkConfig JNull (JNum (Int 0)))))
       "ace-highlight-code language-c" !! "lang"
     = Some (JStr "-c")
  /\ Some (JStr "c") <> Some (JStr "-c").
Proof.
  split; [| split].
  - eexists. split.
    + apply (getUiParameters_returns _ _ (JStr "ace_highlight_code")
               "ace-highlight-code language-c"); reflexivity.
    + rewrite forEach_lang. reflexivity.
  - vm_compute. reflexivity.
  - discriminate.
Qed.

(** The split is on the space character only, and the test is on language
    without the dash. *)
Example lang_from_class_tab_and_plural :
  languageTokens ("x" +:+ String "009" "language-c") = []
  /\ String.words ("x" +:+ String "009" "language-c") = ["x"; "language-c"]
  /\ languageFromClass ∅ "languages" !! "lang" = Some (JStr "languages").
Proof. repeat split; vm_compute; reflexivity. Qed.

(** C7 (amended): after the loop over the keys, the resolved class value is
    split on the space character; every token that begins with language sets
    lang to that token with the first occurrence of language- removed (for a
    token language-REST this is REST), so the last such token decides lang;
    with no such token lang is as the loop left it, and every other key is
    untouched by this step. *)
Theorem lang_from_class (pre : element) (defaults : gmap string jsval)
    (dcls : jsval) (cls : string) :
  defaults !! "class" = Some dcls ->
  paramValue pre "class" dcls = JStr cls ->
  exists cfg : gmap string jsval,
    getUiParameters pre defaults = Normal cfg
    /\ cfg = fold_left languageFromClass (split " " cls) (collectParams pre defaults)
    /\ (forall tok : string,
          In tok (languageTokens cls)
          <-> In tok (split " " cls) /\ String.prefix "language" tok = true)
    /\ cfg !! "lang"
       = match last (languageTokens cls) with
         | Some tok => Some (JStr (replace "language-" "" tok))
         | None => paramValue pre "lang" <$> defaults !! "lang"
         end
    /\ (forall rest : string, replace "language-" "" ("language-" +:+ rest) = rest)
    /\ (forall K : string, K <> "lang" -> cfg !! K = paramValue pre K <$> defaults !! K).
Proof.
  intros Hd Hv. eexists. split; [exact (getUiParameters_returns _ _ _ _ Hd Hv) |].
  split; [reflexivity |]. split; [| split; [| split]].
  - intros tok. unfold languageTokens. apply filter_In.
  - rewrite forEach_lang. unfold languageTokens.
    destruct (last _); [reflexivity | apply collectParams_lookup].
  - apply replace_language_prefix.
  - intros K Hne. rewrite forEach_other by exact Hne. apply collectParams_lookup.
Qed.

Lemma lang_from_class_witness :
  exists cfg : gmap string jsval,
    getUiParameters
      (elementOf [("class", "language-java ace-highlight-code language-c"); ("lang", "sql")])
      (highlightDefaults (mkConfig JNull (JNum (Int 0)))) = Normal cfg
    /\ cfg !! "lang" = Some (JStr "c")
    /\ cfg !! "font-size" = Some (JStr "11pt").
Proof.
  destruct (lang_from_class
              (elementOf [("class", "language-java ace-highlight-code language-c");
                          ("lang", "sql")])
              (highlightDefaults (mkConfig JNull (JNum (Int 0))))
              (JStr "ace_highlight_code") "language-java ace-highlight-code language-c")
    as (cfg & Hget & _ & _ & Hlang & _ & Hother); [reflexivity | reflexivity |].
  exists cfg. split; [exact Hget |]. split.
  - rewrite Hlang. reflexivity.
  - rewrite Hother by discriminate. reflexivity.
Defined.

(** *** Failure *)

(** The defaults of both features have ordinary keys only. *)
Lemma highlightDefaults_ordinaryKeys (config : config) :
  ordinaryKeys (highlightDefaults config).
Proof. split; reflexivity. Qed.

Lemma interactiveDefaults_ordinaryKeys (config : config) :
  ordinaryKeys (interactiveDefaults config).
Proof. split; reflexivity. Qed.



(** *** The classifier on a parsed response *)

Section ParsedResponse.

Variable StringToNumber : string -> number.







End ParsedResponse.



End ResolverFacts.

(** ** More about escaping *)

Module EscapeFacts.
Import Classifier Output Html StringFacts OutputFacts.

Lemma anyChar_app (p : ascii -> bool) (a b : string) :
  anyChar p (a +:+ b) = anyChar p a || anyChar p b.
Proof.
  induction a as [| x a IH]; [reflexivity |].
  rewrite app_cons. cbn [anyChar]. now rewrite IH, orb_assoc.
Qed.

(** What [escapeChar] does, by kind of character. *)
Lemma escapeChar_cases (c : ascii) :
  (isSpecial c = false /\ escapeChar c = String c "")
  \/ (c = "&"%char /\ escapeChar c = "&amp;")
  \/ (c = "<"%char /\ escapeChar c = "&lt;")
  \/ (c = ">"%char /\ escapeChar c = "&gt;")
  \/ (c = "034"%char /\ escapeChar c = "&quot;")
  \/ (c = "'"%char /\ escapeChar c = "&#039;").
Proof.
  destruct c as [[] [] [] [] [] [] [] []]; cbn; tauto.
Qed.

Lemma escapeChar_no_markup (c : ascii) : anyChar isMarkup (escapeChar c) = false.
Proof.
  destruct (escapeChar_cases c) as [[Hs ->] | [[-> ->] | [[-> ->] | [[-> ->] | [[-> ->] | [-> ->]]]]]];
    try reflexivity.
  cbn [anyChar]. rewrite orb_false_r.
  destruct c as [[] [] [] [] [] [] [] []]; try reflexivity; discriminate Hs.
Qed.

Lemma escapeHtml_no_markup (text : string) : anyChar isMarkup (escapeHtml text) = false.
Proof.
  induction text as [| c text IH]; [reflexivity |].
  cbn [escapeHtml]. now rewrite anyChar_app, escapeChar_no_markup, IH.
Qed.

Lemma anyChar_includes (p : ascii -> bool) (s : string) (c : ascii) :
  anyChar p s = false -> p c = true -> includes s c = false.
Proof.
  induction s as [| x s IH]; [reflexivity |]. cbn [anyChar includes].
  intros Hany Hc. apply orb_false_iff in Hany as [Hx Hrest].
  rewrite (IH Hrest Hc), orb_false_r.
  destruct (Ascii.eqb_spec x c) as [-> | _]; [congruence | reflexivity].
Qed.

(** X1: whatever the text, its escaped form contains none of the characters
    less-than, greater-than, double quote and single quote. *)
Theorem escapeHtml_has_no_markup (text : string) :
  includes (escapeHtml text) "<" = false
  /\ includes (escapeHtml text) ">" = false
  /\ includes (escapeHtml text) "034" = false
  /\ includes (escapeHtml text) "'" = false.
Proof.
  repeat split; apply (anyChar_includes isMarkup); auto using escapeHtml_no_markup.
Qed.

Lemma escapeChar_inj (c c' : ascii) (a b : string) :
  escapeChar c +:+ a = escapeChar c' +:+ b -> c = c' /\ a = b.
Proof.
  destruct (escapeChar_cases c) as [[Hs ->] | [[-> ->] | [[-> ->] | [[-> ->] | [[-> ->] | [-> ->]]]]]];
    destruct (escapeChar_cases c') as [[Hs' ->] | [[-> ->] | [[-> ->] | [[-> ->] | [[-> ->] | [-> ->]]]]]];
    rewrite ?app_cons, ?app_nil_l; intros H; injection H; intros; subst;
    try discriminate; auto.
Qed.

(** X2: escaping loses nothing: two texts with the same escaped form are the
    same text. *)
Theorem escapeHtml_injective (a b : string) :
  escapeHtml a = escapeHtml b -> a = b.
Proof.
  revert b. induction a as [| c a IH]; intros [| c' b]; cbn [escapeHtml]; intros H.
  - reflexivity.
  - exfalso. destruct (escapeChar_cases c') as [[_ He] | [[_ He] | [[_ He] | [[_ He] | [[_ He] | [_ He]]]]]];
      rewrite He in H; discriminate H.
  - exfalso. destruct (escapeChar_cases c) as [[_ He] | [[_ He] | [[_ He] | [[_ He] | [[_ He] | [_ He]]]]]];
      rewrite He in H; discriminate H.
  - apply escapeChar_inj in H as [-> H]. now rewrite (IH b H).
Qed.

Lemma escapeHtml_injective_witness :
  "a<b" = "a<b".
Proof. apply escapeHtml_injective. reflexivity. Defined.

Lemma length_escapeChar (c : ascii) :
  (if isSpecial c then 1 < String.length (escapeChar c)
   else String.length (escapeChar c) = 1)%nat.
Proof. destruct c as [[] [] [] [] [] [] [] []]; cbn; lia. Qed.

Lemma length_escapeHtml (text : string) :
  (String.length text <= String.length (escapeHtml text))%nat.
Proof.
  induction text as [| c text IH]; [reflexivity |].
  cbn [escapeHtml String.length]. rewrite length_app.
  pose proof (length_escapeChar c) as Hc. destruct (isSpecial c); lia.
Qed.

(** X3: a text is shown as it is exactly when it has none of the five special
    characters; otherwise its escaped form is strictly longer. A line feed
    is not special: it stays a line feed. *)
Theorem escapeHtml_unchanged_iff (text : string) :
  (escapeHtml text = text <-> anyChar isSpecial text = false)
  /\ (anyChar isSpecial text = true ->
      (String.length text < String.length (escapeHtml text))%nat)
  /\ escapeHtml newline = newline.
Proof.
  assert (Hgrow : anyChar isSpecial text = true ->
                  (String.length text < String.length (escapeHtml text))%nat).
  { induction text as [| c text IH]; [discriminate |].
    cbn [anyChar escapeHtml String.length]. rewrite length_app.
    pose proof (length_escapeChar c) as Hc. pose proof (length_escapeHtml text) as Hle.
    destruct (isSpecial c); cbn [orb]; intros H; [lia |].
    specialize (IH H). lia. }
  split; [| split; [exact Hgrow | reflexivity]].
  split.
  - intros Heq. destruct (anyChar isSpecial text) eqn:Hany; [| reflexivity].
    specialize (Hgrow eq_refl). rewrite Heq in Hgrow. lia.
  - clear Hgrow. induction text as [| c text IH]; [reflexivity |].
    cbn [anyChar escapeHtml]. intros H. apply orb_false_iff in H as [Hc Hrest].
    rewrite (IH Hrest).
    destruct (escapeChar_cases c) as [[_ ->] | [[-> _] | [[-> _] | [[-> _] | [[-> _] | [-> _]]]]]];
      try discriminate Hc. reflexivity.
Qed.

Lemma escapeHtml_unchanged_iff_witness :
  escapeHtml "plain text" = "plain text"
  /\ (String.length "a&b" < String.length (escapeHtml "a&b"))%nat.
Proof.
  split.
  - apply (escapeHtml_unchanged_iff "plain text"). reflexivity.
  - apply (escapeHtml_unchanged_iff "a&b"). reflexivity.
Defined.

End EscapeFacts.

(** ** More about the classifier and the output *)

Module DisplayFacts.
Import Classifier Output Html StringFacts OutputFacts EscapeFacts.

Lemma substring_0_all (n : nat) (s : string) :
  (String.length s <= n)%nat -> String.substring 0 n s = s.
Proof.
  revert n. induction s as [| c s IH]; intros [| n] H; cbn in *; try reflexivity; try lia.
  rewrite IH; [reflexivity | lia].
Qed.

Lemma prefix_refl (s : string) : String.prefix s s = true.
Proof. rewrite <- (app_empty_r s) at 2. apply prefix_app. Qed.

Lemma length_limit (maxLen : Z) (s : string) :
  Z.of_nat (String.length (limit maxLen s)) <= Z.max 0 maxLen + 15.
Proof.
  destruct (Z.le_gt_cases (Z.of_nat (String.length s)) maxLen) as [Hle | Hgt].
  - rewrite limit_short by exact Hle. lia.
  - destruct (Z.lt_ge_cases maxLen 0) as [Hneg | Hpos].
    + rewrite limit_negative by exact Hneg. cbn. lia.
    + rewrite limit_long, length_app, Nat2Z.inj_add, length_substr by lia. cbn. lia.
Qed.

(** X4: the size of what is shown is bounded: a limited string has at most
    max(0, maxLen) + 15 characters, so the assembled output has at most the
    length of cmpinfo plus twice that. *)
Theorem combinedOutput_length_bound (r : response) (maxLen : Z) :
  (forall s : string, Z.of_nat (String.length (limit maxLen s)) <= Z.max 0 maxLen + 15)
  /\ Z.of_nat (String.length (combinedOutput r maxLen))
     <= Z.of_nat (String.length (r_cmpinfo r)) + 2 * (Z.max 0 maxLen + 15).
Proof.
  split; [intros s; apply length_limit |].
  rewrite combinedOutput_eq, !length_app, !Nat2Z.inj_add.
  pose proof (length_limit maxLen (r_output r)).
  pose proof (length_limit maxLen (r_stderr r)). lia.
Qed.

(** X5: truncation keeps the beginning: the first maxLen characters of a
    string are the first characters of its limited form. *)
Theorem limit_keeps_beginning (maxLen : Z) (s : string) :
  String.prefix (String.substring 0 (Z.to_nat maxLen) s) (limit maxLen s) = true.
Proof.
  destruct (Z.le_gt_cases (Z.of_nat (String.length s)) maxLen) as [Hle | Hgt].
  - rewrite limit_short by exact Hle.
    rewrite substring_0_all by lia. apply prefix_refl.
  - destruct (Z.lt_ge_cases maxLen 0) as [Hneg | Hpos].
    + replace (Z.to_nat maxLen) with 0%nat by lia.
      destruct s; destruct (limit maxLen _); reflexivity.
    + rewrite limit_long, substr_prefix by lia. apply prefix_app.
Qed.

(** The responses that [diagnose] answers with the empty string. *)
Lemma diagnose_eq_empty (r : response) :
  diagnose r = "" <-> r_error r = 0 /\ (r_result r = 11 \/ r_result r = 12 \/ r_result r = 15).
Proof.
  destruct r as [e res c o s].
  unfold diagnose, ERROR_RESPONSES, RESULT_SUCCESS.
  cbn [diagnose_rows row_matches r_error r_result snd].
  split.
  - repeat match goal with
    | |- context [Z.eqb ?a ?b] =>
        destruct (Z.eqb_spec a b); cbn [andb orb negb]; try (exfalso; lia)
    end; intros H; try discriminate H; lia.
  - intros [-> [-> | [-> | ->]]]; reflexivity.
Qed.

(** With a sandbox error the answer depends on the error code alone. *)
Lemma diagnose_error_only (r r' : response) :
  r_error r <> 0 -> r_error r' = r_error r -> diagnose r' = diagnose r.
Proof.
  destruct r as [e res c o s], r' as [e' res' c' o' s']. cbn [r_error].
  intros He ->. unfold diagnose, ERROR_RESPONSES.
  cbn [diagnose_rows row_matches r_error r_result snd].
  assert (H0 : (e =? 0) = false) by now apply Z.eqb_neq.
  assert (H0' : (0 =? e) = false) by (apply Z.eqb_neq; lia).
  rewrite H0, H0'. reflexivity.
Qed.

(** X6: the answer of diagnose is empty exactly when the run took place
    (error = 0) and ended in a compilation error, a runtime error or a
    success (result 11, 12 or 15); exactly then the text is shown without a
    language string. *)
Theorem diagnose_empty_iff (htmlOutput : bool) (maxLen : Z) (r : response) :
  (diagnose r = "" <-> r_error r = 0 /\ (r_result r = 11 \/ r_result r = 12 \/ r_result r = 15))
  /\ (langString (done htmlOutput maxLen r) = ""
      <-> r_error r = 0 /\ (r_result r = 11 \/ r_result r = 12 \/ r_result r = 15)).
Proof.
  split; [apply diagnose_eq_empty |].
  rewrite <- diagnose_eq_empty. unfold done.
  destruct (String.eqb_spec (diagnose r) "") as [Heq | Hne].
  - destruct (negb htmlOutput || negb (r_result r =? RESULT_SUCCESS)); cbn; tauto.
  - cbn. tauto.
Qed.

Lemma done_empty_branch (htmlOutput : bool) (maxLen : Z) (r : response) :
  diagnose r = "" ->
  done htmlOutput maxLen r
  = if negb htmlOutput || negb (r_result r =? RESULT_SUCCESS)
    then mkRendering (combinedOutput r maxLen) "" None
           (if negb (r_result r =? RESULT_SUCCESS) then "#ffd" else "#eff") "10px"
    else mkRendering "" "" (Some (r_output r)) "#eff" "0px".
Proof. intros H. unfold done. now rewrite H. Qed.

Section Shown.

Variable get_string : string -> string.

(** X7: raw html is put into the page only for a successful run (error 0,
    result 15) of a block with html output, and it is the output field as it
    is, unescaped; the text area then stays empty. In every other case no
    html is inserted. *)
Theorem html_inserted_iff (htmlOutput : bool) (maxLen : Z) (r : response) (html : string) :
  (htmlAfter (done htmlOutput maxLen r) = Some html
   <-> htmlOutput = true /\ r_error r = 0 /\ r_result r = 15 /\ html = r_output r)
  /\ (htmlAfter (done htmlOutput maxLen r) = Some html ->
      text (done htmlOutput maxLen r) = ""
      /\ presented get_string htmlOutput maxLen r = "").
Proof using Type.
  assert (Hiff : htmlAfter (done htmlOutput maxLen r) = Some html
                 <-> htmlOutput = true /\ r_error r = 0 /\ r_result r = 15
                     /\ html = r_output r).
  { split.
    - intros H. destruct (String.eqb_spec (diagnose r) "") as [Heq | Hne].
      + rewrite (done_empty_branch _ _ _ Heq) in H.
        apply diagnose_eq_empty in Heq as [He _].
        unfold RESULT_SUCCESS in H.
        destruct htmlOutput; destruct (Z.eqb_spec (r_result r) 15);
          cbn in H; try discriminate H.
        injection H as <-. auto.
      + rewrite (done_error_branch _ _ _ Hne) in H. discriminate H.
    - intros (-> & He & Hr & ->).
      rewrite done_empty_branch by (apply diagnose_eq_empty; auto).
      unfold RESULT_SUCCESS. rewrite Hr. reflexivity. }
  split; [exact Hiff |].
  intros H. apply Hiff in H as (-> & He & Hr & ->). unfold presented.
  rewrite done_empty_branch by (apply diagnose_eq_empty; auto).
  unfold RESULT_SUCCESS. rewrite Hr. split; reflexivity.
Qed.

(** X8: the display area keeps its pale blue background exactly for a
    successful run (error 0, result 15); every other response turns it
    yellow. *)
Theorem background_iff_success (htmlOutput : bool) (maxLen : Z) (r : response) :
  backgroundColor (done htmlOutput maxLen r)
  = if (r_error r =? 0) && (r_result r =? 15) then "#eff" else "#ffd".
Proof using Type.
  destruct (String.eqb_spec (diagnose r) "") as [Heq | Hne].
  - rewrite (done_empty_branch _ _ _ Heq).
    apply diagnose_eq_empty in Heq as [He Hr]. rewrite He. unfold RESULT_SUCCESS.
    destruct (Z.eqb_spec (r_result r) 15); destruct htmlOutput; reflexivity.
  - rewrite (done_error_branch _ _ _ Hne). cbn [backgroundColor].
    destruct (Z.eqb_spec (r_error r) 0) as [He | _]; [| reflexivity].
    destruct (Z.eqb_spec (r_result r) 15) as [Hr | _]; [| reflexivity].
    exfalso. apply Hne. apply diagnose_eq_empty. auto.
Qed.

(** X9: whatever the response, the limit and the localised strings, the html
    written to the text area contains no less-than, greater-than or quote
    character. *)
Theorem presented_has_no_markup (htmlOutput : bool) (maxLen : Z) (r : response) :
  includes (presented get_string htmlOutput maxLen r) "<" = false
  /\ includes (presented get_string htmlOutput maxLen r) ">" = false
  /\ includes (presented get_string htmlOutput maxLen r) "034" = false
  /\ includes (presented get_string htmlOutput maxLen r) "'" = false.
Proof using Type.
  unfold presented, displayTextOutput.
  repeat split; apply (anyChar_includes isMarkup); auto using escapeHtml_no_markup.
Qed.

(** X10: when the sandbox reports an error (error not 0) nothing of the
    response but the error code is shown: two responses with the same error
    code are presented alike, whatever their result, cmpinfo, output and
    stderr, and whatever the limit. *)
Theorem sandbox_error_hides_output (htmlOutput htmlOutput' : bool) (maxLen maxLen' : Z)
    (r r' : response) :
  r_error r <> 0 ->
  r_error r' = r_error r ->
  presented get_string htmlOutput' maxLen' r' = presented get_string htmlOutput maxLen r
  /\ htmlAfter (done htmlOutput maxLen r) = None.
Proof using Type.
  intros He Heq.
  assert (Hne : diagnose r <> "").
  { intros H. apply diagnose_eq_empty in H as [H _]. contradiction. }
  assert (Hd : diagnose r' = diagnose r) by now apply diagnose_error_only.
  unfold presented.
  rewrite (done_error_branch htmlOutput maxLen r Hne).
  rewrite (done_error_branch htmlOutput' maxLen' r') by now rewrite Hd.
  cbn [text langString htmlAfter]. split; [| reflexivity].
  rewrite Hd. f_equal. unfold extraText. rewrite Heq.
  destruct (Z.eqb_spec (r_error r) 0) as [H0 | _]; [contradiction | reflexivity].
Qed.

End Shown.

Lemma html_inserted_iff_witness :
  htmlAfter (done true 30000 (mkResponse 0 15 "" "<b>hi</b>" "")) = Some "<b>hi</b>"
  /\ text (done true 30000 (mkResponse 0 15 "" "<b>hi</b>" "")) = "".
Proof.
  pose proof (html_inserted_iff (fun key => key) true 30000
                (mkResponse 0 15 "" "<b>hi</b>" "") "<b>hi</b>") as [Hiff Hthen].
  assert (H : htmlAfter (done true 30000 (mkResponse 0 15 "" "<b>hi</b>" ""))
              = Some "<b>hi</b>").
  { apply Hiff. repeat split; reflexivity. }
  split; [exact H | apply (Hthen H)].
Defined.

Lemma sandbox_error_hides_output_witness :
  presented (fun key => key) false 10 (mkResponse 4 15 "warn" "secret" "trace")
  = presented (fun key => key) true 30000 (mkResponse 4 0 "" "" "").
Proof.
  apply (sandbox_error_hides_output (fun key => key) true false 30000 10
           (mkResponse 4 0 "" "" "") (mkResponse 4 15 "warn" "secret" "trace"));
    [discriminate | reflexivity].
Defined.

Lemma diagnose_empty_iff_witness :
  diagnose (mkResponse 0 12 "" "" "Traceback") = ""
  /\ diagnose (mkResponse 0 13 "" "" "") <> "".
Proof.
  pose proof (diagnose_empty_iff false 30000 (mkResponse 0 12 "" "" "Traceback")) as [H12 _].
  pose proof (diagnose_empty_iff false 30000 (mkResponse 0 13 "" "" "")) as [H13 _].
  split.
  - apply H12. cbn. auto.
  - intros H. apply H13 in H as [_ [H | [H | H]]]; discriminate H.
Defined.

End DisplayFacts.

(** ** The longest line *)

Module EditorFacts.
Import Js Editor Resolver StringFacts ResolverFacts.

Lemma longest_from_spec (lines : list string) (cur : string) :
  (String.length cur <= String.length (longest_from cur lines))%nat
  /\ (forall line, In line lines ->
        (String.length line <= String.length (longest_from cur lines))%nat)
  /\ ((longest_from cur lines = cur
       /\ forall line, In line lines -> (String.length line <= String.length cur)%nat)
      \/ (exists before after : list string,
            lines = (before ++ longest_from cur lines :: after)%list
            /\ (String.length cur < String.length (longest_from cur lines))%nat
            /\ forall line, In line before ->
                 (String.length line < String.length (longest_from cur lines))%nat)).
Proof.
  revert cur. induction lines as [| line rest IH]; intros cur; cbn [longest_from].
  - split; [lia |]. split; [intros ? [] |]. left. split; [reflexivity | intros ? []].
  - destruct (Nat.ltb_spec (String.length cur) (String.length line)) as [Hlt | Hge].
    + destruct (IH line) as (Hcur & Hall & Hwhere).
      split; [lia |]. split.
      * intros l [<- | Hin]; [exact Hcur | now apply Hall].
      * right. destruct Hwhere as [[Heq Hle] | (before & after & Hsplit & Hlt' & Hbefore)].
        -- exists [], rest. rewrite Heq. split; [reflexivity |].
           split; [exact Hlt | intros ? []].
        -- exists (line :: before), after. split; [cbn; now rewrite <- Hsplit |].
           split; [lia |]. intros l [<- | Hin]; [exact Hlt' | now apply Hbefore].
    + destruct (IH cur) as (Hcur & Hall & Hwhere).
      split; [exact Hcur |]. split.
      * intros l [<- | Hin]; [lia | now apply Hall].
      * destruct Hwhere as [[Heq Hle] | (before & after & Hsplit & Hlt' & Hbefore)].
        -- left. split; [exact Heq |]. intros l [<- | Hin]; [exact Hge | now apply Hle].
        -- right. exists (line :: before), after. split; [cbn; now rewrite <- Hsplit |].
           split; [exact Hlt' |]. intros l [<- | Hin]; [lia | now apply Hbefore].
Qed.

(** X11: [longest] returns a line at least as long as every line, and it is
    the first line of that length: either every line is empty and the answer
    is the empty string (so for no line at all), or the answer stands in the
    list with only strictly shorter lines before it. *)
Theorem longest_is_first_longest (lines : list string) :
  (forall line, In line lines ->
     (String.length line <= String.length (longest lines))%nat)
  /\ ((longest lines = "" /\ forall line, In line lines -> line = "")
      \/ (exists before after : list string,
            lines = (before ++ longest lines :: after)%list
            /\ forall line, In line before ->
                 (String.length line < String.length (longest lines))%nat)).
Proof.
  unfold longest. destruct (longest_from_spec lines "") as (_ & Hall & Hwhere).
  split; [exact Hall |].
  destruct Hwhere as [[Heq Hle] | (before & after & Hsplit & _ & Hbefore)].
  - left. split; [exact Heq |]. intros line Hin. specialize (Hle line Hin).
    destruct line; [reflexivity | cbn in Hle; lia].
  - right. eauto.
Qed.

Lemma longest_is_first_longest_witness :
  (String.length "ab" <= String.length (longest ["ab"; "xyz"; "pqr"]))%nat
  /\ longest ["ab"; "xyz"; "pqr"] = "xyz".
Proof.
  split; [| reflexivity].
  apply (longest_is_first_longest ["ab"; "xyz"; "pqr"]). left. reflexivity.
Defined.

End EditorFacts.

(** ** More about the parameter resolver *)

Module ResolverMoreFacts.
Import Js Resolver StringFacts ResolverFacts.

(** X12: the keys of the resolved configuration are the keys of the defaults,
    and lang besides when a class token begins with language: an attribute
    of the element whose name is no key of the defaults never reaches the
    configuration. *)
Theorem resolved_keys (pre : element) (defaults : gmap string jsval)
    (dcls : jsval) (cls : string) :
  defaults !! "class" = Some dcls ->
  paramValue pre "class" dcls = JStr cls ->
  exists cfg : gmap string jsval,
    getUiParameters pre defaults = Normal cfg
    /\ forall K : string,
         is_Some (cfg !! K)
         <-> is_Some (defaults !! K) \/ (K = "lang" /\ languageTokens cls <> []).
Proof.
  intros Hd Hv. eexists. split; [exact (getUiParameters_returns _ _ _ _ Hd Hv) |].
  intros K. destruct (decide (K = "lang")) as [-> | Hne].
  - rewrite forEach_lang, collectParams_lookup. unfold languageTokens.
    destruct (last _) as [tok |] eqn:Hlast.
    + split; [| eauto]. intros _. right. split; [reflexivity |].
      intros Hnil. rewrite Hnil in Hlast. discriminate Hlast.
    + apply last_None in Hlast. rewrite Hlast, fmap_is_Some. tauto.
  - rewrite forEach_other, collectParams_lookup, fmap_is_Some by exact Hne. tauto.
Qed.

Lemma resolved_keys_witness :
  exists cfg : gmap string jsval,
    getUiParameters (elementOf [("hidden", ""); ("id", "demo")])
      (highlightDefaults (mkConfig JNull (JNum (Int 0)))) = Normal cfg
    /\ cfg !! "hidden" = None /\ cfg !! "id" = None.
Proof.
  destruct (resolved_keys (elementOf [("hidden", ""); ("id", "demo")])
              (highlightDefaults (mkConfig JNull (JNum (Int 0))))
              (JStr "ace_highlight_code") "ace_highlight_code")
    as (cfg & Hget & Hkeys); [reflexivity | reflexivity |].
  exists cfg. split; [exact Hget |].
  split; apply eq_None_not_Some; intros H; apply Hkeys in H as [H | [H _]];
    try discriminate H; vm_compute in H; destruct H as [x H]; discriminate H.
Defined.

(** X13: the attribute under the raw name wins over the one with the data-
    prefix, which is used only when the raw one is absent; with neither the
    default stays. *)
Theorem raw_attribute_wins (pre : element) (defaults : gmap string jsval)
    (dcls : jsval) (cls K : string) (dflt : jsval) :
  defaults !! "class" = Some dcls ->
  paramValue pre "class" dcls = JStr cls ->
  K <> "lang" ->
  defaults !! K = Some dflt ->
  exists cfg : gmap string jsval,
    getUiParameters pre defaults = Normal cfg
    /\ (forall raw : string,
          getNamedItem pre K = Some raw -> cfg !! K = Some (coerce K raw))
    /\ (forall data : string,
          getNamedItem pre K = None ->
          getNamedItem pre ("data-" +:+ K) = Some data ->
          cfg !! K = Some (coerce K data))
    /\ (getNamedItem pre K = None ->
        getNamedItem pre ("data-" +:+ K) = None ->
        cfg !! K = Some dflt).
Proof.
  intros Hd Hv Hne HK. eexists.
  split; [exact (getUiParameters_returns _ _ _ _ Hd Hv) |].
  rewrite (resolved_key _ _ _ _ dflt Hne HK). unfold paramValue, namedAttr.
  split; [| split].
  - intros raw ->. reflexivity.
  - intros data -> ->. reflexivity.
  - intros -> ->. reflexivity.
Qed.

Lemma raw_attribute_wins_witness :
  exists cfg : gmap string jsval,
    getUiParameters (elementOf [("data-font-size", "9pt"); ("font-size", "14pt")])
      (highlightDefaults (mkConfig JNull (JNum (Int 0)))) = Normal cfg
    /\ cfg !! "font-size" = Some (JStr "14pt").
Proof.
  destruct (raw_attribute_wins
              (elementOf [("data-font-size", "9pt"); ("font-size", "14pt")])
              (highlightDefaults (mkConfig JNull (JNum (Int 0))))
              (JStr "ace_highlight_code") "ace_highlight_code" "font-size" (JStr "11pt"))
    as (cfg & Hget & Hraw & _); [reflexivity | reflexivity | discriminate | reflexivity |].
  exists cfg. split; [exact Hget |]. apply (Hraw "14pt"). reflexivity.
Defined.

Lemma coerce_other (K value : string) :
  K <> "start-line-number" -> K <> "min-lines" -> K <> "max-lines" -> K <> "hidden" ->
  coerce K value = JStr value.
Proof.
  intros H1 H2 H3 H4. unfold coerce.
  apply String.eqb_neq in H1, H2, H3, H4. now rewrite H1, H2, H3, H4.
Qed.

(** X14: for a key other than start-line-number, min-lines, max-lines, hidden
    and lang, an attribute is stored as the string it holds, with no
    conversion; so max-output-length and dark-theme-mode given as attributes
    resolve to strings, not to numbers. *)
Theorem other_keys_stay_strings (pre : element) (defaults : gmap string jsval)
    (dcls : jsval) (cls K value : string) :
  defaults !! "class" = Some dcls ->
  paramValue pre "class" dcls = JStr cls ->
  ~ In K ["start-line-number"; "min-lines"; "max-lines"; "hidden"; "lang"] ->
  is_Some (defaults !! K) ->
  namedAttr pre K = Some value ->
  exists cfg : gmap string jsval,
    getUiParameters pre defaults = Normal cfg /\ cfg !! K = Some (JStr value).
Proof.
  intros Hd Hv HK [dflt Hdef] Hattr. cbn [In] in HK. eexists.
  split; [exact (getUiParameters_returns _ _ _ _ Hd Hv) |].
  assert (Hne : K <> "lang") by (intros ->; tauto).
  rewrite (resolved_key _ _ _ _ dflt Hne Hdef).
  rewrite (paramValue_found _ _ _ _ Hattr). f_equal.
  apply coerce_other; intros ->; tauto.
Qed.

Lemma other_keys_stay_strings_witness :
  exists cfg : gmap string jsval,
    getUiParameters (elementOf [("data-max-output-length", "100")])
      (interactiveDefaults (mkConfig (JStr "Run") (JNum (Int 0)))) = Normal cfg
    /\ cfg !! "max-output-length" = Some (JStr "100").
Proof.
  apply (other_keys_stay_strings _ _ (JStr "ace_interactive_code") "ace_interactive_code");
    [reflexivity | reflexivity | | vm_compute; eauto | reflexivity].
  cbn [In]. intros H. repeat destruct H as [H | H]; discriminate H || exact H.
Defined.

End ResolverMoreFacts.

(** ** Integers written in decimal *)

Module DecimalFacts.
Import Js Html Resolver StringFacts ResolverFacts.

Lemma pretty_N_char_digit (n : N) : isDecimalDigit (pretty_N_char n) = true.
Proof. unfold pretty_N_char. repeat case_match; reflexivity. Qed.

Lemma digitValue_pretty_N_char (n : N) :
  (n < 10)%N -> digitValue (pretty_N_char n) = Some (Z.of_N n).
Proof.
  intros Hn. destruct n as [| p]; [reflexivity |].
  repeat (destruct p as [p | p |]; try reflexivity; try lia).
Qed.

Lemma allChars_pretty_N_go (x : N) (s : string) :
  allChars isDecimalDigit s = true -> allChars isDecimalDigit (pretty_N_go x s) = true.
Proof.
  revert s. induction (N.lt_wf_0 x) as [x _ IH]. intros s Hs.
  destruct (N.eq_dec x 0%N) as [-> | Hx]; [now rewrite pretty_N_go_0 |].
  rewrite pretty_N_go_step by lia. apply IH; [apply N.div_lt; lia |].
  cbn [allChars]. now rewrite pretty_N_char_digit, Hs.
Qed.

Lemma pretty_N_go_nonempty (x : N) (s : string) :
  (0 < x)%N -> pretty_N_go x s <> "".
Proof.
  revert s. induction (N.lt_wf_0 x) as [x _ IH]. intros s Hx.
  rewrite pretty_N_go_step by exact Hx.
  destruct (N.eq_dec (x / 10)%N 0%N) as [-> | Hq]; [now rewrite pretty_N_go_0 |].
  apply IH; [apply N.div_lt; lia | now apply N.neq_0_lt_0].
Qed.

(** Reading back the digits of a positive number. *)
Lemma parseDigits_pretty_N_go (x : N) (s : string) (acc : option Z) :
  (0 < x)%N ->
  exists k : Z,
    0 <= k
    /\ parseDigits 10 (pretty_N_go x s) acc
       = parseDigits 10 s (Some (default 0 acc * 10 ^ k + Z.of_N x)).
Proof.
  revert s acc. induction (N.lt_wf_0 x) as [x _ IH]. intros s acc Hx.
  rewrite pretty_N_go_step by exact Hx.
  assert (Hd : digitValue (pretty_N_char (x mod 10)%N) = Some (Z.of_N (x mod 10)%N))
    by (apply digitValue_pretty_N_char; apply N.mod_lt; lia).
  assert (Hlt : (Z.of_N (x mod 10)%N <? 10) = true)
    by (apply Z.ltb_lt; pose proof (N.mod_lt x 10%N); lia).
  assert (Hx10 : Z.of_N x = 10 * Z.of_N (x / 10)%N + Z.of_N (x mod 10)%N)
    by (rewrite (N.div_mod x 10%N) at 1 by lia; lia).
  destruct (N.eq_dec (x / 10)%N 0%N) as [Hq | Hq].
  - rewrite Hq, pretty_N_go_0. exists 1. split; [lia |].
    cbn [parseDigits]. rewrite Hd, Hlt. do 2 f_equal. rewrite Hx10, Hq. lia.
  - destruct (IH (x / 10)%N) with (s := String (pretty_N_char (x mod 10)%N) s) (acc := acc)
      as (k & Hk & ->); [apply N.div_lt; lia | now apply N.neq_0_lt_0 |].
    exists (k + 1). split; [lia |].
    cbn [parseDigits]. rewrite Hd, Hlt. cbn [default].
    do 2 f_equal. rewrite Z.pow_add_r by lia. change (10 ^ 1) with 10.
    rewrite Hx10. unfold id. ring.
Qed.

(** On a non-empty string of decimal digits [parseInt] reads in radix 10. *)
Lemma parseInt_digits (s : string) :
  s <> "" -> allChars isDecimalDigit s = true ->
  parseInt s = match parseDigits 10 s None with
               | None => NaN
               | Some n => Int (1 * n)
               end
  /\ parseInt ("-" +:+ s) = match parseDigits 10 s None with
                            | None => NaN
                            | Some n => Int (-1 * n)
                            end.
Proof.
  destruct s as [| c s]; [congruence |]. intros _ Hall. cbn [allChars] in Hall.
  apply andb_true_iff in Hall as [Hc Hs].
  destruct c as [[] [] [] [] [] [] [] []]; try discriminate Hc; clear Hc;
    try (split; reflexivity).
  destruct s as [| c2 s]; [split; reflexivity |].
  cbn [allChars] in Hs. apply andb_true_iff in Hs as [Hc2 _].
  destruct c2 as [[] [] [] [] [] [] [] []]; try discriminate Hc2; split; reflexivity.
Qed.

Lemma parseInt_pretty_positive (p : positive) :
  parseInt (pretty (Z.pos p)) = Int (Z.pos p)
  /\ parseInt (pretty (Z.neg p)) = Int (Z.neg p).
Proof.
  assert (Hs : pretty (Z.pos p) = pretty_N_go (N.pos p) "").
  { unfold pretty, pretty_Z, pretty, pretty_positive, pretty, pretty_N.
    destruct (decide (N.pos p = 0%N)) as [H | _]; [discriminate H | reflexivity]. }
  assert (Hneg : pretty (Z.neg p) = "-" +:+ pretty_N_go (N.pos p) "").
  { unfold pretty at 1, pretty_Z. now rewrite <- Hs. }
  rewrite Hs, Hneg.
  destruct (parseInt_digits (pretty_N_go (N.pos p) "")) as [Hpos Hminus].
  { apply pretty_N_go_nonempty. lia. }
  { now apply allChars_pretty_N_go. }
  rewrite Hpos, Hminus.
  destruct (parseDigits_pretty_N_go (N.pos p) "" None) as (k & _ & ->); [lia |].
  cbn [parseDigits default]. split; f_equal; lia.
Qed.

Lemma parseInt_pretty (z : Z) : parseInt (pretty z) = Int z.
Proof.
  destruct z as [| p | p]; [reflexivity | |]; apply parseInt_pretty_positive.
Qed.

Lemma digits_not_none (s : string) :
  allChars isDecimalDigit s = true -> isNoneAnyCase s = false.
Proof.
  destruct s as [| c s]; [reflexivity |]. cbn [allChars]. intros H.
  apply andb_true_iff in H as [Hc _].
  destruct c as [[] [] [] [] [] [] [] []]; try discriminate Hc;
    destruct s as [| c2 [| c3 [| c4 [| c5 s]]]]; reflexivity.
Qed.

Lemma pretty_not_none (z : Z) : isNoneAnyCase (pretty z) = false.
Proof.
  destruct z as [| p | p]; [reflexivity | |].
  - unfold pretty, pretty_Z, pretty, pretty_positive, pretty, pretty_N.
    destruct (decide (N.pos p = 0%N)) as [H | _]; [discriminate H |].
    apply digits_not_none. now apply allChars_pretty_N_go.
  - unfold pretty, pretty_Z.
    destruct (pretty p) as [| c2 [| c3 [| c4 [| c5 s]]]]; reflexivity.
Qed.

(** X15: a safe integer (one of absolute value at most
    Number.MAX_SAFE_INTEGER, which a double holds exactly and whose decimal
    form has no exponent) written in decimal is read back as that integer:
    for min-lines, max-lines and start-line-number, an attribute whose value
    is the decimal form of such a z resolves to the number z. *)
Theorem decimal_attribute_round_trip (pre : element) (defaults : gmap string jsval)
    (dcls : jsval) (cls K : string) (z : Z) :
  Z.abs z <= MAX_SAFE_INTEGER ->
  defaults !! "class" = Some dcls ->
  paramValue pre "class" dcls = JStr cls ->
  K = "min-lines" \/ K = "max-lines" \/ K = "start-line-number" ->
  is_Some (defaults !! K) ->
  namedAttr pre K = Some (numberToString (Int z)) ->
  parseInt (numberToString (Int z)) = Int z
  /\ exists cfg : gmap string jsval,
       getUiParameters pre defaults = Normal cfg /\ cfg !! K = Some (JNum (Int z)).
Proof.
  intros _ Hd Hv HK [dflt Hdef] Hattr. cbn [numberToString] in *.
  split; [apply parseInt_pretty |]. eexists.
  split; [exact (getUiParameters_returns _ _ _ _ Hd Hv) |].
  rewrite (resolved_key _ _ _ _ dflt)
    by (exact Hdef || (destruct HK as [-> | [-> | ->]]; discriminate)).
  rewrite (paramValue_found _ _ _ _ Hattr). f_equal.
  destruct HK as [-> | [-> | ->]].
  - rewrite coerce_lines by now left. now rewrite parseInt_pretty.
  - rewrite coerce_lines by now right. now rewrite parseInt_pretty.
  - now rewrite coerce_start_line_number, parseInt_pretty, pretty_not_none.
Qed.

Lemma decimal_attribute_round_trip_witness :
  exists cfg : gmap string jsval,
    getUiParameters (elementOf [("min-lines", "-7")])
      (interactiveDefaults (mkConfig (JStr "Run") (JNum (Int 0)))) = Normal cfg
    /\ cfg !! "min-lines" = Some (JNum (Int (-7))).
Proof.
  apply (decimal_attribute_round_trip _ _ (JStr "ace_interactive_code")
           "ace_interactive_code" "min-lines" (-7));
    [unfold MAX_SAFE_INTEGER; lia | reflexivity | reflexivity | now left
    | vm_compute; eauto | vm_compute; reflexivity].
Defined.

End DecimalFacts.

(** ** The editor after the resolver *)

Module SetupFacts.
Import Js Html Editor Resolver StringFacts ResolverFacts ResolverMoreFacts.

Lemma get_insert_eq (o : gmap string jsval) (key : string) (v : jsval) :
  get (<[key := v]> o) key = v.
Proof. unfold get. now rewrite lookup_insert_eq. Qed.

Lemma get_insert_ne (o : gmap string jsval) (key key' : string) (v : jsval) :
  key <> key' -> get (<[key := v]> o) key' = get o key'.
Proof. intros H. unfold get. now rewrite lookup_insert_ne. Qed.

(** A key with a string default that is not converted resolves to a string. *)
Lemma paramValue_string (pre : element) (K d : string) :
  K <> "start-line-number" -> K <> "min-lines" -> K <> "max-lines" -> K <> "hidden" ->
  exists s : string, paramValue pre K (JStr d) = JStr s.
Proof.
  intros H1 H2 H3 H4. unfold paramValue.
  destruct (namedAttr pre K) as [value |]; [| eauto].
  rewrite coerce_other by assumption. eauto.
Qed.

(** What the resolver returns when class, lang and ace-lang have string
    defaults: lang and ace-lang are strings. *)
Lemma resolved_languages (pre : element) (defaults : gmap string jsval) (c l a : string) :
  defaults !! "class" = Some (JStr c) ->
  defaults !! "lang" = Some (JStr l) ->
  defaults !! "ace-lang" = Some (JStr a) ->
  exists (cfg : gmap string jsval) (lang aceLang : string),
    getUiParameters pre defaults = Normal cfg
    /\ get cfg "lang" = JStr lang
    /\ get cfg "ace-lang" = JStr aceLang
    /\ forall K : string, K <> "lang" -> cfg !! K = paramValue pre K <$> defaults !! K.
Proof.
  intros Hc Hl Ha. destruct (paramValue_class_string pre c) as [cls Hv].
  destruct (paramValue_string pre "lang" l) as [l' Hl']; try discriminate.
  destruct (paramValue_string pre "ace-lang" a) as [a' Ha']; try discriminate.
  eexists.
  exists (match last (languageTokens cls) with
          | Some tok => replace "language-" "" tok
          | None => l'
          end), a'.
  split; [exact (getUiParameters_returns _ _ _ _ Hc Hv) |].
  split; [| split].
  - unfold get. rewrite forEach_lang. unfold languageTokens.
    destruct (last _); [reflexivity |].
    now rewrite collectParams_lookup, Hl; cbn; rewrite Hl'.
  - unfold get. rewrite (resolved_key _ _ _ _ (JStr a)) by (discriminate || exact Ha).
    cbn. exact Ha'.
  - intros K Hne. rewrite forEach_other by exact Hne. apply collectParams_lookup.
Qed.

(** [setUpAce] on parameters whose lang and ace-lang are strings. *)
Lemma setUpAce_strings (cfg : gmap string jsval) (lang aceLang : string) :
  get cfg "lang" = JStr lang ->
  get cfg "ace-lang" = JStr aceLang ->
  setUpAce cfg
  = Normal (<["lang" := JStr (if String.eqb lang "python" then "python3" else lang)]> cfg,
            mkAceSettings
              (modeOf (toLowerCase
                         (if negb (String.eqb aceLang "") then aceLang
                          else if String.eqb lang "python" then "python3" else lang)))
              (ToBoolean (get cfg "start-line-number"))
              (get cfg "start-line-number") (get cfg "max-lines")
              (get cfg "font-size") (isNotNull (get cfg "readonly"))).
Proof.
  intros Hlang Hace. unfold setUpAce.
  rewrite Hlang. cbn [strictEqString].
  destruct (String.eqb lang "python");
    rewrite ?(get_insert_ne _ "lang" "start-line-number"),
            ?(get_insert_ne _ "lang" "ace-lang"), ?(get_insert_ne _ "lang" "max-lines"),
            ?(get_insert_ne _ "lang" "font-size"), ?(get_insert_ne _ "lang" "readonly")
      by discriminate;
    rewrite get_insert_eq, Hace;
    cbn [ToBoolean]; destruct (negb (String.eqb aceLang "")); reflexivity.
Qed.

(** X16: after the resolver, with string defaults for class, lang and
    ace-lang (as both features have), [setUpAce] does not fail; it changes
    nothing in the parameters but lang, where python becomes python3, so the
    language of a block is never python afterwards. *)
Theorem setUpAce_after_resolve (pre : element) (defaults : gmap string jsval)
    (c l a : string) :
  defaults !! "class" = Some (JStr c) ->
  defaults !! "lang" = Some (JStr l) ->
  defaults !! "ace-lang" = Some (JStr a) ->
  exists (cfg uiParameters : gmap string jsval) (settings : aceSettings) (lang : string),
    getUiParameters pre defaults = Normal cfg
    /\ get cfg "lang" = JStr lang
    /\ setUpAce cfg = Normal (uiParameters, settings)
    /\ uiParameters
       = <["lang" := JStr (if String.eqb lang "python" then "python3" else lang)]> cfg
    /\ get uiParameters "lang" <> JStr "python".
Proof.
  intros Hc Hl Ha.
  destruct (resolved_languages pre defaults c l a Hc Hl Ha)
    as (cfg & lang & aceLang & Hget & Hlang & Hace & _).
  exists cfg. eexists. eexists. exists lang.
  split; [exact Hget |]. split; [exact Hlang |].
  split; [exact (setUpAce_strings cfg lang aceLang Hlang Hace) |].
  split; [reflexivity |].
  rewrite get_insert_eq.
  destruct (String.eqb_spec lang "python") as [-> | Hne]; [discriminate | congruence].
Qed.

Lemma setUpAce_after_resolve_witness :
  exists (cfg uiParameters : gmap string jsval) (settings : aceSettings),
    getUiParameters (elementOf [("data-lang", "python")])
      (interactiveDefaults (mkConfig (JStr "Run") (JNum (Int 0)))) = Normal cfg
    /\ setUpAce cfg = Normal (uiParameters, settings)
    /\ get uiParameters "lang" <> JStr "python".
Proof.
  destruct (setUpAce_after_resolve (elementOf [("data-lang", "python")])
              (interactiveDefaults (mkConfig (JStr "Run") (JNum (Int 0))))
              "ace_interactive_code" "python3" "")
    as (cfg & ui & st & lang & Hget & _ & Hset & _ & Hpy);
    [reflexivity | reflexivity | reflexivity |].
  exists cfg, ui, st. auto.
Defined.

Lemma lowerChar_idempotent (c : ascii) : lowerChar (lowerChar c) = lowerChar c.
Proof. destruct c as [[] [] [] [] [] [] [] []]; reflexivity. Qed.

Lemma toLowerCase_idempotent (s : string) : toLowerCase (toLowerCase s) = toLowerCase s.
Proof.
  induction s as [| c s IH]; [reflexivity |].
  cbn [toLowerCase]. now rewrite lowerChar_idempotent, IH.
Qed.

(** Of the names that every object inherits, a lower-case string can only
    be constructor or __proto__. *)
Lemma inherited_lowercase (s : string) :
  existsb (String.eqb (toLowerCase s)) objectPrototypeNames = true ->
  toLowerCase s = "constructor" \/ toLowerCase s = "__proto__".
Proof.
  pose proof (toLowerCase_idempotent s) as Hidem.
  cbn [existsb objectPrototypeNames].
  repeat match goal with
  | |- context [String.eqb (toLowerCase s) ?name] =>
      destruct (String.eqb_spec (toLowerCase s) name) as [Heq | _];
      [ first [ now left | now right
              | exfalso; rewrite Heq in Hidem; discriminate Hidem ] |]
  end.
  discriminate.
Qed.

(** X17: the editor mode is taken from ace-lang when it is not empty and
    from the language otherwise, without regard to letter case: it is
    ace/mode/ followed by the entry of the mode table for the lower-case
    name, or by the lower-case name itself when the table has none. The only
    names for which this fails are constructor and __proto__, which the test
    with [in] finds among the inherited properties of the table. *)
Theorem editor_mode (pre : element) (defaults : gmap string jsval) (c l a : string) :
  defaults !! "class" = Some (JStr c) ->
  defaults !! "lang" = Some (JStr l) ->
  defaults !! "ace-lang" = Some (JStr a) ->
  exists (cfg uiParameters : gmap string jsval) (settings : aceSettings)
         (aceLang : string),
    getUiParameters pre defaults = Normal cfg
    /\ setUpAce cfg = Normal (uiParameters, settings)
    /\ JStr aceLang = (if ToBoolean (get cfg "ace-lang") then get cfg "ace-lang"
                       else get uiParameters "lang")
    /\ mode settings = modeOf (toLowerCase aceLang)
    /\ (toLowerCase aceLang <> "constructor" -> toLowerCase aceLang <> "__proto__" ->
        mode settings
        = Mode ("ace/mode/" +:+ default (toLowerCase aceLang)
                                  (assoc (toLowerCase aceLang) aceModeMap))).
Proof.
  intros Hc Hl Ha.
  destruct (resolved_languages pre defaults c l a Hc Hl Ha)
    as (cfg & lang & aceLang & Hget & Hlang & Hace & _).
  exists cfg. eexists. eexists.
  exists (if negb (String.eqb aceLang "") then aceLang
          else if String.eqb lang "python" then "python3" else lang).
  split; [exact Hget |].
  split; [exact (setUpAce_strings cfg lang aceLang Hlang Hace) |].
  rewrite get_insert_eq, Hace. cbn [ToBoolean mode].
  split; [destruct (negb (String.eqb aceLang "")), (String.eqb lang "python"); reflexivity |].
  split; [reflexivity |].
  intros H1 H2. unfold modeOf.
  destruct (assoc _ aceModeMap); [reflexivity |].
  match goal with
  | |- context [existsb ?f ?names] => destruct (existsb f names) eqn:Hin
  end; [| reflexivity].
  apply inherited_lowercase in Hin as [Hin | Hin]; contradiction.
Qed.

Lemma editor_mode_witness :
  exists (cfg uiParameters : gmap string jsval) (settings : aceSettings),
    getUiParameters (elementOf [("data-lang", "Python"); ("ace-lang", "C++")])
      (interactiveDefaults (mkConfig (JStr "Run") (JNum (Int 0)))) = Normal cfg
    /\ setUpAce cfg = Normal (uiParameters, settings).
Proof.
  destruct (editor_mode (elementOf [("data-lang", "Python"); ("ace-lang", "C++")])
              (interactiveDefaults (mkConfig (JStr "Run") (JNum (Int 0))))
              "ace_interactive_code" "python3" "")
    as (cfg & ui & st & aceLang & Hget & Hset & _);
    [reflexivity | reflexivity | reflexivity |].
  exists cfg, ui, st. auto.
Defined.

(** X18: line numbers. The editor shows line numbers exactly when the
    resolved start-line-number is truthy: with an attribute, when its value
    is not none (in any letter case) and parses to an integer other than 0;
    with no attribute, when the default is truthy. The first line number is
    the resolved value itself. So the values none, 0 and anything that is
    not a number all hide the line numbers. *)
Theorem line_numbers_after_resolve (pre : element) (defaults : gmap string jsval)
    (c l a : string) (dflt : jsval) :
  defaults !! "class" = Some (JStr c) ->
  defaults !! "lang" = Some (JStr l) ->
  defaults !! "ace-lang" = Some (JStr a) ->
  defaults !! "start-line-number" = Some dflt ->
  exists (cfg uiParameters : gmap string jsval) (settings : aceSettings),
    getUiParameters pre defaults = Normal cfg
    /\ setUpAce cfg = Normal (uiParameters, settings)
    /\ showLineNumbers settings = ToBoolean (firstLineNumber settings)
    /\ (forall value : string,
          namedAttr pre "start-line-number" = Some value ->
          firstLineNumber settings
          = (if isNoneAnyCase value then JNull else JNum (parseInt value))
          /\ showLineNumbers settings
             = negb (isNoneAnyCase value)
               && match parseInt value with
                  | Int z => negb (z =? 0)
                  | NaN => false
                  end)
    /\ (namedAttr pre "start-line-number" = None ->
        firstLineNumber settings = dflt
        /\ showLineNumbers settings = ToBoolean dflt).
Proof.
  intros Hc Hl Ha Hs.
  destruct (resolved_languages pre defaults c l a Hc Hl Ha)
    as (cfg & lang & aceLang & Hget & Hlang & Hace & Hother).
  exists cfg. eexists. eexists. split; [exact Hget |].
  split; [exact (setUpAce_strings cfg lang aceLang Hlang Hace) |].
  cbn [showLineNumbers firstLineNumber]. split; [reflexivity |].
  unfold get. rewrite Hother, Hs by discriminate. cbn [fmap option_fmap option_map default].
  split.
  - intros value Hattr. unfold from_option.
    rewrite (paramValue_found _ _ _ _ Hattr), coerce_start_line_number.
    destruct (isNoneAnyCase value); [split; reflexivity |].
    split; [reflexivity |]. destruct (parseInt value); reflexivity.
  - intros Hattr. unfold from_option. rewrite (paramValue_absent _ _ _ Hattr). auto.
Qed.

Lemma line_numbers_after_resolve_witness :
  exists (cfg uiParameters : gmap string jsval) (settings : aceSettings),
    getUiParameters (elementOf [("start-line-number", "0")])
      (interactiveDefaults (mkConfig (JStr "Run") (JNum (Int 0)))) = Normal cfg
    /\ setUpAce cfg = Normal (uiParameters, settings)
    /\ showLineNumbers settings = false.
Proof.
  destruct (line_numbers_after_resolve (elementOf [("start-line-number", "0")])
              (interactiveDefaults (mkConfig (JStr "Run") (JNum (Int 0))))
              "ace_interactive_code" "python3" "" (JNum (Int 1)))
    as (cfg & ui & st & Hget & Hset & _ & Hattr & _);
    [reflexivity | reflexivity | reflexivity | reflexivity |].
  exists cfg, ui, st. split; [exact Hget |]. split; [exact Hset |].
  destruct (Hattr "0") as [_ Hshow]; [reflexivity |]. exact Hshow.
Defined.

(** The resolver when the class default is a string: every key but lang is
    resolved on its own. *)
Lemma resolved_other (pre : element) (defaults : gmap string jsval) (c : string) :
  defaults !! "class" = Some (JStr c) ->
  exists cfg : gmap string jsval,
    getUiParameters pre defaults = Normal cfg
    /\ forall K : string, K <> "lang" -> get cfg K = default JUndefined (paramValue pre K <$> defaults !! K).
Proof.
  intros Hc. destruct (paramValue_class_string pre c) as [cls Hv]. eexists.
  split; [exact (getUiParameters_returns _ _ _ _ Hc Hv) |].
  intros K Hne. unfold get. now rewrite forEach_other, collectParams_lookup by exact Hne.
Qed.

(** X19: a block with a hidden attribute (or data-hidden), whatever its
    value, gets no editor when hidden is a key of the defaults: an
    interactive block gets its button, which runs the text of the pre
    element, and a block that is not interactive gets nothing; the pre
    element is hidden in every case. Without the attribute the default of
    hidden decides. *)
Theorem hidden_block_has_no_editor (pre : element) (defaults : gmap string jsval)
    (c : string) (dflt : jsval) :
  defaults !! "class" = Some (JStr c) ->
  defaults !! "hidden" = Some dflt ->
  exists (cfg : gmap string jsval) (uploads : list uiAction),
    getUiParameters pre defaults = Normal cfg
    /\ uploads = (if ToBoolean (get cfg "file-upload-id")
                  then [SetupFileHandler (get cfg "file-upload-id")] else [])
    /\ (forall value : string,
          namedAttr pre "hidden" = Some value ->
          applyToPre true cfg = (uploads ++ [AddUi FromPre; HidePre])%list
          /\ applyToPre false cfg = (uploads ++ [HidePre])%list)
    /\ (namedAttr pre "hidden" = None -> ToBoolean dflt = false ->
        forall isInteractive : bool,
          applyToPre isInteractive cfg
          = (uploads ++ [SetUpAce isInteractive; HidePre])%list).
Proof.
  intros Hc Hh. destruct (resolved_other pre defaults c Hc) as (cfg & Hget & Hother).
  exists cfg. eexists. split; [exact Hget |]. split; [reflexivity |].
  unfold applyToPre. rewrite (Hother "hidden") by discriminate.
  rewrite Hh. cbn [fmap option_fmap option_map default from_option id].
  split.
  - intros value Hattr. rewrite (paramValue_found _ _ _ _ Hattr), coerce_hidden.
    split; reflexivity.
  - intros Hattr Hd isInteractive. rewrite (paramValue_absent _ _ _ Hattr), Hd.
    reflexivity.
Qed.

Lemma hidden_block_has_no_editor_witness :
  exists cfg : gmap string jsval,
    getUiParameters (elementOf [("hidden", "false")])
      (interactiveDefaults (mkConfig (JStr "Run") (JNum (Int 0)))) = Normal cfg
    /\ applyToPre true cfg = [AddUi FromPre; HidePre].
Proof.
  destruct (hidden_block_has_no_editor (elementOf [("hidden", "false")])
              (interactiveDefaults (mkConfig (JStr "Run") (JNum (Int 0))))
              "ace_interactive_code" (JBool false))
    as (cfg & uploads & Hget & Hup & Hhidden & _); [reflexivity | reflexivity |].
  exists cfg. split; [exact Hget |].
  destruct (Hhidden "false") as [Hbutton _]; [reflexivity |].
  rewrite Hbutton, Hup. clear Hbutton Hhidden Hup.
  destruct (resolved_other (elementOf [("hidden", "false")])
              (interactiveDefaults (mkConfig (JStr "Run") (JNum (Int 0))))
              "ace_interactive_code") as (cfg' & Hget' & Hother); [reflexivity |].
  assert (Hsame : cfg' = cfg) by (apply Normal_inj; congruence).
  subst cfg'. rewrite (Hother "file-upload-id") by discriminate. reflexivity.
Defined.

(** X20: when hidden and file-upload-id are no keys of the defaults, as for
    the highlighting feature, these attributes have no effect: whatever the
    element, the editor is set up and the pre element is hidden, and nothing
    else is done. *)
Theorem highlight_ignores_hidden (pre : element) (defaults : gmap string jsval)
    (c : string) (isInteractive : bool) :
  defaults !! "class" = Some (JStr c) ->
  defaults !! "hidden" = None ->
  defaults !! "file-upload-id" = None ->
  exists cfg : gmap string jsval,
    getUiParameters pre defaults = Normal cfg
    /\ applyToPre isInteractive cfg = [SetUpAce isInteractive; HidePre].
Proof.
  intros Hc Hh Hf. destruct (resolved_other pre defaults c Hc) as (cfg & Hget & Hother).
  exists cfg. split; [exact Hget |]. unfold applyToPre.
  rewrite (Hother "hidden"), (Hother "file-upload-id"), Hh, Hf by discriminate.
  reflexivity.
Qed.

Lemma highlight_ignores_hidden_witness :
  exists cfg : gmap string jsval,
    getUiParameters (elementOf [("hidden", ""); ("file-upload-id", "up")])
      (highlightDefaults (mkConfig JNull (JNum (Int 0)))) = Normal cfg
    /\ applyToPre false cfg = [SetUpAce false; HidePre].
Proof.
  apply (highlight_ignores_hidden _ _ "ace_highlight_code"); reflexivity.
Defined.

End SetupFacts.

(** ** Facts about running a block *)

Module RunFacts.
Import Js Run StringFacts ResolverFacts SetupFacts.

Ltac get_simpl :=
  repeat first [ rewrite get_insert_eq | rewrite get_insert_ne by discriminate ].


Lemma add_not_null (a b : jsval) : isNotNull (add a b) = true.
Proof. destruct a, b; reflexivity. Qed.




Lemma objectOf_from_absent (assignments : list (string * jsval))
    (o : gmap string jsval) (name : string) :
  ~ In name (List.map fst assignments) ->
  fold_left (fun o '(name, value) =>
               if String.eqb name "__proto__" then o else <[name := value]> o)
            assignments o !! name
  = o !! name.
Proof.
  revert o. induction assignments as [| [k v] rest IH]; intros o Hnot; [reflexivity |].
  cbn [fold_left]. cbn [List.map fst In] in Hnot.
  rewrite IH by tauto. destruct (String.eqb k "__proto__"); [reflexivity |].
  apply lookup_insert_ne. tauto.
Qed.

(** The last assignment to a name decides its value. *)
Lemma objectOf_last (before after : list (string * jsval)) (name : string) (v : jsval) :
  name <> "__proto__" ->
  ~ In name (List.map fst after) ->
  Run.objectOf (before ++ (name, v) :: after) !! name = Some v.
Proof.
  intros Hname Hnot. unfold objectOf. rewrite fold_left_app. cbn [fold_left].
  rewrite objectOf_from_absent by exact Hnot.
  destruct (String.eqb_spec name "__proto__") as [Heq | _]; [contradiction |].
  apply lookup_insert_eq.
Qed.

Lemma objectOf_keeps_proto (assignments : list (string * jsval)) (o : gmap string jsval) :
  o !! "__proto__" = None ->
  fold_left (fun o '(name, value) =>
               if String.eqb name "__proto__" then o else <[name := value]> o)
            assignments o !! "__proto__"
  = None.
Proof.
  revert o. induction assignments as [| [k v] rest IH]; intros o Ho; [exact Ho |].
  cbn [fold_left]. apply IH.
  destruct (String.eqb_spec k "__proto__") as [Heq | Hne]; [exact Ho |].
  rewrite lookup_insert_ne by exact Hne. exact Ho.
Qed.

Section PageFacts.

Variable val : string -> completion jsval.
Variable window : string -> option (jsval -> completion jsval).
Variable JSON_parse : string -> option (list (string * string)).
Variable JSON_stringify : list (string * jsval) -> string.
Variable get_string : string -> string.

(** X21: the standard input of a run, for a stdin-taid that is not a number
    (the resolver makes it a string). Without a stdin-taid the stdin
    parameter is returned, or the empty string when there is none. With a
    stdin-taid the stdin parameter is ignored and the element is asked for
    its value: when jQuery throws on the selector, [getStdin] throws that
    error; otherwise the value is returned, or null when it is missing or
    empty. So the answer is null exactly when there is a stdin-taid whose
    selector is accepted and finds no value, and [getStdin] throws exactly
    when there is a stdin-taid whose selector jQuery refuses. *)
Theorem getStdin_outcomes (uiParameters : gmap string jsval) :
  isNumber (get uiParameters "stdin-taid") = false ->
  (ToBoolean (get uiParameters "stdin-taid") = false ->
   getStdin val uiParameters
   = Normal (if ToBoolean (get uiParameters "stdin")
             then get uiParameters "stdin" else JStr ""))
  /\ (forall e : error,
        ToBoolean (get uiParameters "stdin-taid") = true ->
        val ("#" +:+ ToString (get uiParameters "stdin-taid")) = Throw e ->
        getStdin val uiParameters = Throw e)
  /\ (forall output : jsval,
        ToBoolean (get uiParameters "stdin-taid") = true ->
        val ("#" +:+ ToString (get uiParameters "stdin-taid")) = Normal output ->
        getStdin val uiParameters = Normal (if ToBoolean output then output else JNull))
  /\ (getStdin val uiParameters = Normal JNull
      <-> ToBoolean (get uiParameters "stdin-taid") = true
          /\ exists output : jsval,
               val ("#" +:+ ToString (get uiParameters "stdin-taid")) = Normal output
               /\ ToBoolean output = false)
  /\ (forall e : error,
        getStdin val uiParameters = Throw e
        <-> ToBoolean (get uiParameters "stdin-taid") = true
            /\ val ("#" +:+ ToString (get uiParameters "stdin-taid")) = Throw e).
Proof using Type.
  intros _. unfold getStdin.
  destruct (ToBoolean (get uiParameters "stdin-taid")) eqn:Htaid.
  - destruct (val ("#" +:+ ToString (get uiParameters "stdin-taid"))) as [output | e0]
      eqn:Hval.
    + split; [discriminate |]. split; [discriminate |]. split; [| split].
      * intros output' _ Heq. apply Normal_inj in Heq. subst output'.
        destruct (ToBoolean output); reflexivity.
      * split.
        -- intros Hnull. split; [reflexivity |]. exists output. split; [reflexivity |].
           destruct (ToBoolean output) eqn:Hout; [| reflexivity].
           cbn [negb] in Hnull. apply Normal_inj in Hnull. subst output.
           discriminate Hout.
        -- intros (_ & output' & Heq & Hfalsy). apply Normal_inj in Heq. subst output'.
           now rewrite Hfalsy.
      * intros e. split; [discriminate | intros [_ H]; discriminate H].
    + split; [discriminate |]. split; [| split; [| split]].
      * intros e _ Heq. exact Heq.
      * intros output _ Heq. discriminate Heq.
      * split; [discriminate | intros (_ & output & Heq & _); discriminate Heq].
      * intros e. split; [intros Heq; split; [reflexivity | exact Heq] | intros [_ Heq]; exact Heq].
  - split; [| split; [| split; [| split]]].
    + intros _. destruct (ToBoolean (get uiParameters "stdin")); reflexivity.
    + intros e H. discriminate H.
    + intros output H. discriminate H.
    + split; [| intros [H _]; discriminate H].
      destruct (ToBoolean (get uiParameters "stdin")) eqn:Hstdin; intros H;
        apply Normal_inj in H; [rewrite H in Hstdin |]; discriminate.
    + intros e. split; [| intros [H _]; discriminate H].
      destruct (ToBoolean (get uiParameters "stdin")); discriminate.
Qed.

(** The first loop of [getFiles] passes every id that has a value. *)
Lemma readTaids_app (before rest : list (string * string)) (map : list (string * jsval)) :
  (forall filename id : string,
     In (filename, id) before -> exists value : jsval, hasValue val id value) ->
  exists read : list (string * jsval),
    readTaids val (before ++ rest) map = readTaids val rest (map ++ read)
    /\ (forall (filename id : string) (value : jsval),
          In (filename, id) before -> val ("#" +:+ id) = Normal value ->
          In (filename, value) read).
Proof using Type.
  revert map. induction before as [| [filename id] before IH]; intros map Hall.
  - exists []. split; [now rewrite List.app_nil_r | intros ? ? ? []].
  - destruct (Hall filename id) as (value & Hval & Htruthy); [now left |].
    destruct (IH (map ++ [(filename, value)])%list) as (read & Hread & Hin).
    { intros f i Hfi. apply (Hall f i). now right. }
    exists ((filename, value) :: read). split.
    + cbn [app readTaids]. rewrite Hval, Htruthy. cbn [negb].
      rewrite Hread. now rewrite <- List.app_assoc.
    + intros f i v [Heq | Hfi] Hv.
      * injection Heq as <- <-. rewrite Hval in Hv. apply Normal_inj in Hv.
        subst v. now left.
      * right. exact (Hin f i v Hfi Hv).
Qed.

(** X22: the files of a run. With file-taids that are not JSON the answer is
    error. With file-taids whose object has a property named hasOwnProperty
    the loop throws a TypeError. Otherwise the ids are looked up in order,
    and the first one that has no value decides: when jQuery throws on its
    selector [getFiles] throws that error, when its element has no value (or
    an empty one) the answer is bad_id, whatever was uploaded. When every id
    has a value, an uploaded file named hasOwnProperty makes the second loop
    throw a TypeError; otherwise the answer is the JSON form of the object
    that gets the value of each element under its file name and then every
    uploaded file, so that an uploaded file replaces a file of the same name
    that comes from an element (the name __proto__ gives no property). *)
Theorem getFiles_outcomes (uiParameters : gmap string jsval)
    (uploadFiles : list (string * string)) :
  (isEmptyObject (get uiParameters "file-taids") = true ->
   getFiles val JSON_parse JSON_stringify uiParameters uploadFiles
   = if hidesHasOwnProperty uploadFiles then Throw TypeError
     else Normal (JSON_stringify
                    (List.map (fun '(name, contents) => (name, JStr contents))
                       uploadFiles)))
  /\ (isEmptyObject (get uiParameters "file-taids") = false ->
      JSON_parse (ToString (get uiParameters "file-taids")) = None ->
      getFiles val JSON_parse JSON_stringify uiParameters uploadFiles = Normal "error")
  /\ (forall taids : list (string * string),
        isEmptyObject (get uiParameters "file-taids") = false ->
        JSON_parse (ToString (get uiParameters "file-taids")) = Some taids ->
        (hidesHasOwnProperty taids = true ->
         getFiles val JSON_parse JSON_stringify uiParameters uploadFiles = Throw TypeError)
        /\ (hidesHasOwnProperty taids = false ->
            forall (before after : list (string * string)) (filename id : string),
              taids = (before ++ (filename, id) :: after)%list ->
              (forall f i : string,
                 In (f, i) before -> exists value : jsval, hasValue val i value) ->
              (forall e : error,
                 val ("#" +:+ id) = Throw e ->
                 getFiles val JSON_parse JSON_stringify uiParameters uploadFiles = Throw e)
              /\ (forall value : jsval,
                    val ("#" +:+ id) = Normal value -> ToBoolean value = false ->
                    getFiles val JSON_parse JSON_stringify uiParameters uploadFiles
                    = Normal "bad_id"))
        /\ (hidesHasOwnProperty taids = false ->
            (forall f i : string,
               In (f, i) taids -> exists value : jsval, hasValue val i value) ->
            (hidesHasOwnProperty uploadFiles = true ->
             getFiles val JSON_parse JSON_stringify uiParameters uploadFiles
             = Throw TypeError)
            /\ (hidesHasOwnProperty uploadFiles = false ->
                exists assignments : list (string * jsval),
                  getFiles val JSON_parse JSON_stringify uiParameters uploadFiles
                  = Normal (JSON_stringify assignments)
                  /\ (forall (f i : string) (value : jsval),
                        In (f, i) taids -> val ("#" +:+ i) = Normal value ->
                        In (f, value) assignments)
                  /\ (forall (name contents : string)
                             (before after : list (string * string)),
                        uploadFiles = (before ++ (name, contents) :: after)%list ->
                        ~ In name (List.map fst after) ->
                        name <> "__proto__" ->
                        objectOf assignments !! name = Some (JStr contents))
                  /\ objectOf assignments !! "__proto__" = None))).
Proof using Type.
  unfold getFiles. split; [| split].
  - intros ->. reflexivity.
  - intros -> ->. reflexivity.
  - intros taids -> ->. cbn [negb]. split; [| split].
    + intros ->. reflexivity.
    + intros -> before after filename id -> Hbefore.
      destruct (readTaids_app before ((filename, id) :: after) [] Hbefore)
        as (read & -> & _).
      cbn [readTaids]. split.
      * intros e ->. reflexivity.
      * intros value -> ->. reflexivity.
    + intros -> Hall.
      destruct (readTaids_app taids [] [] Hall) as (read & Hread & Hin).
      rewrite List.app_nil_r in Hread. rewrite Hread. cbn [readTaids app].
      unfold mergeUploads. split; [intros ->; reflexivity |].
      intros ->. eexists. split; [reflexivity |]. split; [| split].
      * intros f i value Hfi Hv. apply in_or_app. left. exact (Hin f i value Hfi Hv).
      * intros name contents before after -> Hnot Hname.
        rewrite List.map_app. cbn [List.map]. rewrite List.app_assoc.
        apply objectOf_last; [exact Hname |]. rewrite List.map_map.
        intros Hi. apply Hnot. apply in_map_iff in Hi as ([n c] & Heq & Hi).
        apply in_map_iff. exists (n, c). auto.
      * apply objectOf_keeps_proto. apply lookup_empty.
Qed.




(** X25: clicks keep the language of the block. If prev-lang is undefined
    or equal to lang (as it is after the resolver, and after every click),
    then after a click lang is what it was, and prev-lang is again undefined
    or equal to lang. *)
Theorem click_keeps_language (code : string) (uiParameters after : gmap string jsval)
    (uploadFiles : list (string * string)) (sent : option request) :
  get uiParameters "prev-lang" = JUndefined
  \/ get uiParameters "prev-lang" = get uiParameters "lang" ->
  click val window JSON_parse JSON_stringify get_string code uiParameters uploadFiles
  = Normal (sent, after) ->
  get after "lang" = get uiParameters "lang"
  /\ (get after "prev-lang" = JUndefined \/ get after "prev-lang" = get after "lang").
Proof using Type.
  intros Hinv. unfold click, handleButtonClick.
  destruct (mapCode window (JStr code) uiParameters) as [mapped | e]; [| discriminate].
  unfold runChecked.
  destruct (getStdin val uiParameters) as [input | e]; [| discriminate].
  destruct (getFiles val JSON_parse JSON_stringify uiParameters uploadFiles)
    as [found | e]; [| discriminate].
  unfold checked.
  destruct (strictEqString (get uiParameters "lang") "markup"
            || strictEqString (get uiParameters "lang") "html") eqn:Hhtml.
  - cbn [returned parameters isNotNull]. intros H. injection H as _ <-. get_simpl.
    assert (Htruthy : ToBoolean (get uiParameters "lang") = true).
    { destruct (get uiParameters "lang") as [| | | | s |]; try discriminate Hhtml.
      cbn in Hhtml |- *. destruct (String.eqb_spec s ""); [subst; discriminate | reflexivity]. }
    rewrite Htruthy. auto.
  - destruct (isNotNull input && _).
    + cbn [returned parameters]. rewrite add_not_null.
      intros H. injection H as _ <-. get_simpl.
      destruct Hinv as [Hundef | Hsame].
      * rewrite Hundef. cbn [ToBoolean]. auto.
      * rewrite Hsame. destruct (ToBoolean (get uiParameters "lang")); auto.
    + cbn [returned parameters isNotNull]. intros H. injection H as _ <-. auto.
Qed.

End PageFacts.

Lemma getStdin_outcomes_witness :
  getStdin examplePage (<["stdin-taid" := JStr "out"]> (<["stdin" := JStr "7"]> ∅))
  = Normal JNull
  /\ getStdin examplePage (<["stdin-taid" := JStr "in"]> (<["stdin" := JStr "7"]> ∅))
     = Normal (JStr "42")
  /\ getStdin examplePage (<["stdin-taid" := JStr "a!"]> (<["stdin" := JStr "7"]> ∅))
     = Throw (Error "Syntax error, unrecognized expression: #a!").
Proof.
  split; [| split].
  - apply (getStdin_outcomes examplePage
             (<["stdin-taid" := JStr "out"]> (<["stdin" := JStr "7"]> ∅)));
      [reflexivity |].
    split; [reflexivity |]. exists JUndefined. split; reflexivity.
  - pose proof (getStdin_outcomes examplePage
                  (<["stdin-taid" := JStr "in"]> (<["stdin" := JStr "7"]> ∅)) eq_refl)
      as (_ & _ & Hvalue & _).
    exact (Hvalue (JStr "42") eq_refl eq_refl).
  - pose proof (getStdin_outcomes examplePage
                  (<["stdin-taid" := JStr "a!"]> (<["stdin" := JStr "7"]> ∅)) eq_refl)
      as (_ & Hthrow & _).
    exact (Hthrow _ eq_refl eq_refl).
Defined.

Lemma getFiles_outcomes_witness :
  getFiles examplePage
    (fun text => Some [("data.txt", "in"); ("more.txt", "gone"); ("last.txt", "a!")])
    (fun assignments => "{}")
    (<["file-taids" := JStr "{...}"]> ∅) [("more.txt", "uploaded")]
  = Normal "bad_id"
  /\ getFiles examplePage
       (fun text => Some [("data.txt", "in"); ("more.txt", "a!"); ("last.txt", "gone")])
       (fun assignments => "{}")
       (<["file-taids" := JStr "{...}"]> ∅) [("more.txt", "uploaded")]
     = Throw (Error "Syntax error, unrecognized expression: #a!").
Proof.
  assert (Hin : forall f i : string,
            In (f, i) [("data.txt", "in")] ->
            exists value : jsval, hasValue examplePage i value).
  { intros f i [Heq | []]. injection Heq as <- <-. exists (JStr "42"). split; reflexivity. }
  split.
  - destruct (getFiles_outcomes examplePage
                (fun text => Some [("data.txt", "in"); ("more.txt", "gone"); ("last.txt", "a!")])
                (fun assignments => "{}")
                (<["file-taids" := JStr "{...}"]> ∅) [("more.txt", "uploaded")])
      as (_ & _ & Hparsed).
    destruct (Hparsed [("data.txt", "in"); ("more.txt", "gone"); ("last.txt", "a!")]
                eq_refl eq_refl) as (_ & Hfirst & _).
    destruct (Hfirst eq_refl [("data.txt", "in")] [("last.txt", "a!")] "more.txt" "gone"
                eq_refl Hin) as [_ Hbad].
    exact (Hbad JUndefined eq_refl eq_refl).
  - destruct (getFiles_outcomes examplePage
                (fun text => Some [("data.txt", "in"); ("more.txt", "a!"); ("last.txt", "gone")])
                (fun assignments => "{}")
                (<["file-taids" := JStr "{...}"]> ∅) [("more.txt", "uploaded")])
      as (_ & _ & Hparsed).
    destruct (Hparsed [("data.txt", "in"); ("more.txt", "a!"); ("last.txt", "gone")]
                eq_refl eq_refl) as (_ & Hfirst & _).
    destruct (Hfirst eq_refl [("data.txt", "in")] [("last.txt", "gone")] "more.txt" "a!"
                eq_refl Hin) as [Hthrow _].
    exact (Hthrow _ eq_refl).
Defined.



Lemma click_keeps_language_witness :
  exists (sent : option request) (after : gmap string jsval),
    click (fun selector => Normal JUndefined) (fun name => None) (fun text => None)
      (fun assignments => "{}") (fun key => key)
      "<b>hi</b>" (<["lang" := JStr "markup"]> ∅) []
    = Normal (sent, after)
    /\ get after "lang" = JStr "markup".
Proof.
  assert (H : exists (sent : option request) (after : gmap string jsval),
            click (fun selector => Normal JUndefined) (fun name => None) (fun text => None)
              (fun assignments => "{}") (fun key => key)
              "<b>hi</b>" (<["lang" := JStr "markup"]> ∅) []
            = Normal (sent, after))
    by (eexists; eexists; vm_compute; reflexivity).
  destruct H as (sent & after & Hclick). exists sent, after. split; [exact Hclick |].
  destruct (click_keeps_language (fun selector => Normal JUndefined) (fun name => None)
              (fun text => None) (fun assignments => "{}") (fun key => key)
              "<b>hi</b>" (<["lang" := JStr "markup"]> ∅) after [] sent)
    as [Hlang _]; [left; reflexivity | exact Hclick |].
  rewrite Hlang. reflexivity.
Defined.

End RunFacts.
